(** * Notion time tracker: the background timer state machine

    A shallow embedding of [src/background/service-worker.ts] (the timer
    transitions, the remote session client and the message listener), of
    the client side of the message channel in [src/popup/lib/stores.ts]
    and of the time formatting helpers in [lib/time.ts].

    Conventions of the embedding:
    - JavaScript numbers that hold millisecond counts are integers of [Z];
      where the source divides them, the rounding of the quotient to a
      double is written out ([floor_quotient]), and so are the digits the
      source prints for a double ([toString]);
    - [T | null] is [option T]; the truthiness tests of the source
      ([!x], [x ? a : b], [x || d]) are written out with [truthy_string]
      and [truthy_number], so that the empty string and the number zero
      count as falsy exactly as in the source;
    - [async] functions are computations of the monad [M]: they thread the
      world (the extension storage, the remote store, the badge, the tick
      alarm and a log of effects) and either return or throw an error
      message;
    - what the outside decides during one handler run (the clock, the
      replies of the remote API) is read from an [Env]. *)

From Stdlib Require Import ZArith List String Ascii Bool Lia Permutation.
From Stdlib Require Import Decimal DecimalString DecimalN.
Import ListNotations.

Local Open Scope string_scope.
Local Open Scope Z_scope.

(** ** Data model ([src/popup/lib/types.ts]) *)

Inductive Theme := light | dark | system.

Inductive View := tasks | timer | settings.

Record Settings := {
  apiKey : string;
  tasksDataSourceId : string;
  tasksDataSourceName : string;
  statusPropertyId : string;
  statusPropertyName : string;
  sessionsPropertyId : string;
  sessionsPropertyName : string;
  workSessionsDataSourceId : string;
  workSessionsDataSourceName : string;
  startDatePropertyId : string;
  startDatePropertyName : string;
  endDatePropertyId : string;
  endDatePropertyName : string;
  theme : Theme
}.

Record TimerState := {
  isRunning : bool;
  isPaused : bool;
  taskId : option string;
  taskTitle : string;
  currentSessionId : option string;
  sessionStartTime : option Z;
  previousTotal : Z
}.

Record StartTimerPayload := {
  payloadTaskId : string;
  payloadTaskTitle : string;
  payloadPreviousTotal : Z
}.

Definition DEFAULT_TIMER_STATE : TimerState := {|
  isRunning := false;
  isPaused := false;
  taskId := None;
  taskTitle := "";
  currentSessionId := None;
  sessionStartTime := None;
  previousTotal := 0
|}.

Inductive Message :=
| START_TIMER (payload : StartTimerPayload)
| PAUSE_TIMER
| RESUME_TIMER
| STOP_TIMER
| GET_STATE
| STATE_UPDATE
| SETTINGS_UPDATE.

(** ** JavaScript truthiness of nullable values *)

Definition truthy_string (x : option string) : bool :=
  match x with
  | Some s => negb (s =? "")%string
  | None => false
  end.

Definition truthy_number (x : option Z) : bool :=
  match x with
  | Some n => negb (n =? 0)
  | None => false
  end.

(** ** The world the service worker acts on *)

(** A session record of the remote store: one tracked interval. *)
Record RemoteSession := {
  rs_id : string;
  rs_task : string;            (* the relation back to the task *)
  rs_number : option nat;      (* "(Session n)" of the title, when a title property exists *)
  rs_start : Z;                (* start date *)
  rs_end : option Z            (* end date; a record without one is active *)
}.

Inductive Method := GET | POST | PATCH.

(** Effects that leave the service worker, most recent first. *)
Inductive Effect :=
| Fetch (method : Method) (endpoint : string) (bearer : string)
| StorageSet (state : TimerState).

Inductive Badge := BadgeRunning | BadgePaused | BadgeEmpty.

Record World := {
  w_settings : option Settings;   (* storage key notion_time_tracker_settings *)
  w_timer : option TimerState;    (* storage key notion_time_tracker_timer_state *)
  w_remote : list RemoteSession;  (* the work sessions database *)
  w_badge : Badge;
  w_alarm : bool;                 (* the tick alarm exists *)
  w_log : list Effect
}.

Definition with_timer (st : TimerState) (w : World) : World :=
  {| w_settings := w_settings w; w_timer := Some st; w_remote := w_remote w;
     w_badge := w_badge w; w_alarm := w_alarm w; w_log := w_log w |}.

Definition with_settings (s : Settings) (w : World) : World :=
  {| w_settings := Some s; w_timer := w_timer w; w_remote := w_remote w;
     w_badge := w_badge w; w_alarm := w_alarm w; w_log := w_log w |}.

Definition with_remote (db : list RemoteSession) (w : World) : World :=
  {| w_settings := w_settings w; w_timer := w_timer w; w_remote := db;
     w_badge := w_badge w; w_alarm := w_alarm w; w_log := w_log w |}.

Definition with_badge (b : Badge) (w : World) : World :=
  {| w_settings := w_settings w; w_timer := w_timer w; w_remote := w_remote w;
     w_badge := b; w_alarm := w_alarm w; w_log := w_log w |}.

Definition with_alarm (a : bool) (w : World) : World :=
  {| w_settings := w_settings w; w_timer := w_timer w; w_remote := w_remote w;
     w_badge := w_badge w; w_alarm := a; w_log := w_log w |}.

Definition logged (e : Effect) (w : World) : World :=
  {| w_settings := w_settings w; w_timer := w_timer w; w_remote := w_remote w;
     w_badge := w_badge w; w_alarm := w_alarm w; w_log := e :: w_log w |}.

(** ** Computations that may throw *)

Inductive outcome (A : Type) :=
| Ok (a : A)
| Err (message : string).
Arguments Ok {A} a.
Arguments Err {A} message.

Definition M (A : Type) : Type := World -> outcome A * World.

Definition ret {A} (a : A) : M A := fun w => (Ok a, w).

Definition throw {A} (message : string) : M A := fun w => (Err message, w).

Definition bind {A B} (m : M A) (k : A -> M B) : M B :=
  fun w =>
    match m w with
    | (Ok a, w1) => k a w1
    | (Err e, w1) => (Err e, w1)
    end.

(** [try { m } catch { return d }] *)
Definition catch_default {A} (m : M A) (d : A) : M A :=
  fun w =>
    match m w with
    | (Ok a, w1) => (Ok a, w1)
    | (Err _, w1) => (Ok d, w1)
    end.

Definition modify (f : World -> World) : M unit := fun w => (Ok tt, f w).

Notation "x <- m ;; k" := (bind m (fun x => k))
  (at level 61, m at next level, right associativity).
Notation "m ;;; k" := (bind m (fun _ => k))
  (at level 61, right associativity).

(** ** What the outside decides during one handler run *)

Record DbProperty := {
  prop_id : string;
  prop_name : string;
  prop_type : string;
  prop_relation : option string   (* relation.database_id *)
}.

Record PageProperty := {
  page_relation : option (list string)
}.

Record Env := {
  now : Z;                                    (* Date.now() *)
  stamp : Z;                                  (* new Date() of a request body *)
  databaseReply : outcome (list DbProperty);  (* GET /databases/{id} *)
  pageReply : outcome (list (string * PageProperty));  (* GET /pages/{id} *)
  createReply : outcome string;               (* POST /pages: id of the new record *)
  patchReply : outcome unit                   (* PATCH /pages/{id} *)
}.

(** ** Storage and badge *)

Definition getSettings : M (option Settings) :=
  fun w => (Ok (w_settings w), w).

Definition stored_state (w : World) : TimerState :=
  match w_timer w with
  | Some st => st
  | None => DEFAULT_TIMER_STATE
  end.

Definition getTimerState : M TimerState :=
  fun w => (Ok (stored_state w), w).

Definition saveTimerState (state : TimerState) : M unit :=
  modify (fun w => logged (StorageSet state) (with_timer state w)).

Definition updateBadge (state : TimerState) : M unit :=
  if isRunning state then modify (with_badge BadgeRunning)
  else if isPaused state then modify (with_badge BadgePaused)
  else modify (with_badge BadgeEmpty).

(** ** Remote session client *)

(** The remote store's side of a successful POST /pages. *)
Definition server_create (id task : string) (number : option nat) (start : Z)
    (db : list RemoteSession) : list RemoteSession :=
  (db ++ [{| rs_id := id; rs_task := task; rs_number := number;
             rs_start := start; rs_end := None |}])%list.

(** The remote store's side of a successful PATCH of the end date. *)
Definition server_close (id : string) (finish : Z)
    (db : list RemoteSession) : list RemoteSession :=
  map (fun r =>
         if (rs_id r =? id)%string
         then {| rs_id := rs_id r; rs_task := rs_task r; rs_number := rs_number r;
                 rs_start := rs_start r; rs_end := Some finish |}
         else r) db.

(** [notionRequest]: the request leaves the worker; a failed request throws
    the error message, a successful one yields the decoded body. *)
Definition notionRequest {T} (key : string) (method : Method) (endpoint : string)
    (reply : outcome T) : M T :=
  fun w => (reply, logged (Fetch method endpoint key) w).

Record DatabasePropertyInfo := {
  taskRelationName : option string;
  titlePropertyName : option string
}.

Definition option_string_eqb (x : option string) (y : string) : bool :=
  match x with
  | Some s => (s =? y)%string
  | None => false
  end.

(** [prop?.name || null] *)
Definition name_or_null (p : option DbProperty) : option string :=
  match p with
  | Some q => if (prop_name q =? "")%string then None else Some (prop_name q)
  | None => None
  end.

Definition getWorkSessionsDbInfo (key workSessionsDbId tasksDbId : string)
    (env : Env) : M DatabasePropertyInfo :=
  db <- notionRequest key GET ("/databases/" ++ workSessionsDbId) (databaseReply env) ;;
  let relationProp :=
    find (fun prop => (prop_type prop =? "relation")%string
                      && option_string_eqb (prop_relation prop) tasksDbId) db in
  let titleProp := find (fun prop => (prop_type prop =? "title")%string) db in
  ret {| taskRelationName := name_or_null relationProp;
         titlePropertyName := name_or_null titleProp |}.

Definition lookup_property (name : string) (props : list (string * PageProperty))
    : option PageProperty :=
  option_map snd (find (fun kv => (fst kv =? name)%string) props).

Definition getExistingSessionCount (key task sessionsProperty : string)
    (env : Env) : M nat :=
  catch_default
    (page <- notionRequest key GET ("/pages/" ++ task) (pageReply env) ;;
     ret match lookup_property sessionsProperty page with
         | Some {| page_relation := Some ids |} => List.length ids
         | _ => 0%nat
         end)
    0%nat.

Definition createWorkSession (cfg : Settings) (task title : string)
    (env : Env) : M string :=
  dbInfo <- getWorkSessionsDbInfo (apiKey cfg) (workSessionsDataSourceId cfg)
              (tasksDataSourceId cfg) env ;;
  match taskRelationName dbInfo with
  | None => throw "Could not find task relation property"
  | Some _ =>
      existingCount <- getExistingSessionCount (apiKey cfg) task
                         (sessionsPropertyName cfg) env ;;
      let sessionNumber := (existingCount + 1)%nat in
      let number := match titlePropertyName dbInfo with
                    | Some _ => Some sessionNumber
                    | None => None
                    end in
      id <- notionRequest (apiKey cfg) POST "/pages" (createReply env) ;;
      modify (fun w => with_remote (server_create id task number (stamp env) (w_remote w)) w) ;;;
      ret id
  end.

Definition endWorkSession (cfg : Settings) (sessionId : string) (env : Env) : M unit :=
  notionRequest (apiKey cfg) PATCH ("/pages/" ++ sessionId) (patchReply env) ;;;
  modify (fun w => with_remote (server_close sessionId (stamp env) (w_remote w)) w).

(** ** The transitions ([handleStartTimer] ... [handleGetState]) *)

Definition handleStartTimer (payload : StartTimerPayload) (env : Env) : M TimerState :=
  cfg <- getSettings ;;
  match cfg with
  | None => throw "Settings not configured"
  | Some cfg =>
      sessionId <- createWorkSession cfg (payloadTaskId payload)
                     (payloadTaskTitle payload) env ;;
      let state := {|
        isRunning := true;
        isPaused := false;
        taskId := Some (payloadTaskId payload);
        taskTitle := payloadTaskTitle payload;
        currentSessionId := Some sessionId;
        sessionStartTime := Some (now env);
        previousTotal := payloadPreviousTotal payload
      |} in
      saveTimerState state ;;;
      updateBadge state ;;;
      modify (with_alarm true) ;;;
      ret state
  end.

Definition handlePauseTimer (env : Env) : M TimerState :=
  cfg <- getSettings ;;
  state <- getTimerState ;;
  (* if (!settings || !state.isRunning || !state.currentSessionId) return state; *)
  match cfg, currentSessionId state with
  | Some cfg, Some sessionId =>
      if isRunning state && truthy_string (currentSessionId state) then
        endWorkSession cfg sessionId env ;;;
        (* state.sessionStartTime ? Date.now() - state.sessionStartTime : 0 *)
        let sessionElapsed :=
          match sessionStartTime state with
          | Some started =>
              if truthy_number (sessionStartTime state) then now env - started else 0
          | None => 0
          end in
        let newState := {|
          isRunning := false;
          isPaused := true;
          taskId := taskId state;
          taskTitle := taskTitle state;
          currentSessionId := None;
          sessionStartTime := None;
          previousTotal := previousTotal state + sessionElapsed
        |} in
        saveTimerState newState ;;;
        updateBadge newState ;;;
        modify (with_alarm false) ;;;
        ret newState
      else ret state
  | _, _ => ret state
  end.

(** [state.taskTitle || 'Untitled'] *)
Definition title_or_untitled (title : string) : string :=
  if (title =? "")%string then "Untitled" else title.

Definition handleResumeTimer (env : Env) : M TimerState :=
  cfg <- getSettings ;;
  state <- getTimerState ;;
  (* if (!settings || !state.isPaused || !state.taskId) return state; *)
  match cfg, taskId state with
  | Some cfg, Some task =>
      if isPaused state && truthy_string (taskId state) then
        sessionId <- createWorkSession cfg task (title_or_untitled (taskTitle state)) env ;;
        let newState := {|
          isRunning := true;
          isPaused := false;
          taskId := taskId state;
          taskTitle := taskTitle state;
          currentSessionId := Some sessionId;
          sessionStartTime := Some (now env);
          previousTotal := previousTotal state
        |} in
        saveTimerState newState ;;;
        updateBadge newState ;;;
        modify (with_alarm true) ;;;
        ret newState
      else ret state
  | _, _ => ret state
  end.

Definition handleStopTimer (env : Env) : M TimerState :=
  cfg <- getSettings ;;
  state <- getTimerState ;;
  match cfg with
  | None =>
      saveTimerState DEFAULT_TIMER_STATE ;;;
      updateBadge DEFAULT_TIMER_STATE ;;;
      ret DEFAULT_TIMER_STATE
  | Some cfg =>
      (* if (state.isRunning && state.currentSessionId) await endWorkSession(...) *)
      match currentSessionId state with
      | Some sessionId =>
          if isRunning state && truthy_string (currentSessionId state)
          then endWorkSession cfg sessionId env
          else ret tt
      | None => ret tt
      end ;;;
      saveTimerState DEFAULT_TIMER_STATE ;;;
      updateBadge DEFAULT_TIMER_STATE ;;;
      modify (with_alarm false) ;;;
      ret DEFAULT_TIMER_STATE
  end.

Definition handleGetState : M TimerState := getTimerState.

(** ** The message listener *)

(** What [sendResponse] is called with. *)
Inductive Response :=
| StateResponse (state : TimerState)       (* a TimerState *)
| SnapshotResponse (timerState : TimerState) (* { timerState } of GET_STATE *)
| ErrorResponse (error : string).          (* { error } *)

Definition dispatch (message : Message) (env : Env) : M Response :=
  match message with
  | START_TIMER payload => st <- handleStartTimer payload env ;; ret (StateResponse st)
  | PAUSE_TIMER => st <- handlePauseTimer env ;; ret (StateResponse st)
  | RESUME_TIMER => st <- handleResumeTimer env ;; ret (StateResponse st)
  | STOP_TIMER => st <- handleStopTimer env ;; ret (StateResponse st)
  | GET_STATE => st <- handleGetState ;; ret (SnapshotResponse st)
  | STATE_UPDATE | SETTINGS_UPDATE => ret (ErrorResponse "Unknown message type")
  end.

(** [handleMessage]: the [try]/[catch] around the dispatch turns a thrown
    error into an error descriptor. *)
Definition handleMessage (message : Message) (env : Env) (w : World) : Response * World :=
  match dispatch message env w with
  | (Ok r, w1) => (r, w1)
  | (Err e, w1) => (ErrorResponse e, w1)
  end.

(** ** The client side of the channel ([stores.ts]) *)

Inductive Promise (A : Type) :=
| Resolved (value : A)
| Rejected (reason : string).
Arguments Resolved {A} value.
Arguments Rejected {A} reason.

(** What [chrome.runtime.lastError] reports when the channel fails: the
    message, and whether the listener had run before the channel failed
    (no receiver, or the port closed before the response came back). *)
Record TransportError := {
  te_message : string;
  te_delivered : bool
}.

(** [sendMessage]: [lastError] is the transport's [chrome.runtime.lastError];
    when it is set the promise is rejected whatever the listener did. *)
Definition sendMessage (lastError : option TransportError) (message : Message) (env : Env)
    (w : World) : Promise Response * World :=
  match lastError with
  | Some err =>
      (Rejected (te_message err),
       if te_delivered err then snd (handleMessage message env w) else w)
  | None => let (r, w1) := handleMessage message env w in (Resolved r, w1)
  end.

Record Ui := {
  currentView : View;
  errorMessage : option string
}.

Definition startTimer (lastError : option TransportError) (task title : string) (total : Z)
    (env : Env) (ui : Ui) (w : World) : Ui * World :=
  match sendMessage lastError
          (START_TIMER {| payloadTaskId := task; payloadTaskTitle := title;
                          payloadPreviousTotal := total |}) env w with
  | (Resolved _, w1) => ({| currentView := timer; errorMessage := errorMessage ui |}, w1)
  | (Rejected _, w1) =>
      ({| currentView := currentView ui; errorMessage := Some "Failed to start timer" |}, w1)
  end.

Definition pauseTimer (lastError : option TransportError) (env : Env) (ui : Ui) (w : World)
    : Ui * World :=
  match sendMessage lastError PAUSE_TIMER env w with
  | (Resolved _, w1) => (ui, w1)
  | (Rejected _, w1) =>
      ({| currentView := currentView ui; errorMessage := Some "Failed to pause timer" |}, w1)
  end.

Definition resumeTimer (lastError : option TransportError) (env : Env) (ui : Ui) (w : World)
    : Ui * World :=
  match sendMessage lastError RESUME_TIMER env w with
  | (Resolved _, w1) => (ui, w1)
  | (Rejected _, w1) =>
      ({| currentView := currentView ui; errorMessage := Some "Failed to resume timer" |}, w1)
  end.

Definition stopTimer (lastError : option TransportError) (env : Env) (ui : Ui) (w : World)
    : Ui * World :=
  match sendMessage lastError STOP_TIMER env w with
  | (Resolved _, w1) => ({| currentView := tasks; errorMessage := errorMessage ui |}, w1)
  | (Rejected _, w1) =>
      ({| currentView := currentView ui; errorMessage := Some "Failed to stop timer" |}, w1)
  end.

(** ** Runs of the system *)

(** Between two deliveries the popup may store a settings bundle
    ([saveSettings]); the worker itself never writes that key. *)
Inductive Step :=
| Deliver (message : Message) (env : Env)
| SaveSettings (cfg : Settings).

Definition step (w : World) (s : Step) : World :=
  match s with
  | Deliver message env => snd (handleMessage message env w)
  | SaveSettings cfg => with_settings cfg w
  end.

Definition run (steps : list Step) (w : World) : World := fold_left step steps w.

(** The world at first install: nothing stored under the timer key. *)
Definition installed (cfg : option Settings) (db : list RemoteSession) : World :=
  {| w_settings := cfg; w_timer := None; w_remote := db;
     w_badge := BadgeEmpty; w_alarm := false; w_log := [] |}.

(** ** Numbers of the time helpers

    The millisecond counts of [lib/time.ts] are JavaScript numbers, that
    is doubles. An integer of [Z] stands for the double of that value;
    every integer up to [MAX_SAFE_INTEGER] in magnitude is one. The
    quotients the helpers take are rounded to the nearest double before
    [Math.floor] sees them, and that rounding is written out here; [%] is
    exact on doubles. *)

Definition MAX_SAFE_INTEGER : Z := 2 ^ 53 - 1.

(** [N / D] rounded to the nearest integer, ties to the even one. *)
Definition round_half_even (N D : Z) : Z :=
  let q := N / D in
  let r := N mod D in
  if 2 * r <? D then q
  else if D <? 2 * r then q + 1
  else if Z.even q then q else q + 1.

Definition scaled_numerator (n e : Z) : Z := if 0 <=? e then n else n * 2 ^ (- e).
Definition scaled_denominator (d e : Z) : Z := if 0 <=? e then d * 2 ^ e else d.

(** The double nearest to [n / d], for positive [n] and [d], is
    [double_mantissa n d * 2 ^ double_exponent n d], the mantissa having 53
    bits. (The quotients of the helpers stay far inside the exponent range
    of doubles.) *)
Definition double_exponent (n d : Z) : Z :=
  let e0 := Z.log2 n - Z.log2 d - 52 in
  if 2 ^ 52 <=? scaled_numerator n e0 / scaled_denominator d e0 then e0 else e0 - 1.

Definition double_mantissa (n d : Z) : Z :=
  let e := double_exponent n d in
  round_half_even (scaled_numerator n e) (scaled_denominator d e).

(** [Math.floor(n / d)] for a positive divisor [d]. *)
Definition floor_quotient (n d : Z) : Z :=
  match n with
  | 0 => 0
  | Zpos _ =>
      let e := double_exponent n d in
      let m := double_mantissa n d in
      if 0 <=? e then m * 2 ^ e else m / 2 ^ (- e)
  | Zneg _ =>
      let e := double_exponent (- n) d in
      let m := double_mantissa (- n) d in
      if 0 <=? e then - (m * 2 ^ e) else (- m) / 2 ^ (- e)
  end.

(** ** Time formatting ([lib/time.ts]) *)

(** The double nearest to a non-negative integer (ties to the even
    mantissa). *)
Definition to_double (v : Z) : Z :=
  if v <? 2 ^ 53 then v
  else let e := Z.log2 v - 52 in round_half_even v (2 ^ e) * 2 ^ e.

(** The decimal numeral of a non-negative integer. *)
Definition decimal (v : Z) : string := NilZero.string_of_uint (N.to_uint (Z.to_N v)).

Definition digits10 (v : Z) : Z := Z.of_nat (String.length (decimal v)).

(** The two decimals of [k] significant digits around [x], which has [n]
    digits: the closer one first, the even one on a tie. *)
Definition decimals_near (x n k : Z) : list Z :=
  let scale := 10 ^ (n - k) in
  let lo := x / scale * scale in
  let hi := lo + scale in
  if ((x - lo <? hi - x) || ((x - lo =? hi - x) && Z.even (x / scale)))%bool
  then [lo; hi] else [hi; lo].

(** The decimal of fewest significant digits that reads back as the
    double [x]; seventeen digits always suffice. *)
Definition shortest_decimal (x : Z) : Z :=
  let n := digits10 x in
  let candidates :=
    flat_map (fun k => decimals_near x n (Z.of_nat k)) (seq 1 (Z.to_nat (Z.min n 17))) in
  match find (fun v => to_double v =? x) candidates with
  | Some v => v
  | None => x
  end.

Fixpoint strip_zeros (fuel : nat) (v : Z) : Z :=
  match fuel with
  | O => v
  | S k => if ((v mod 10 =? 0) && (0 <? v))%bool then strip_zeros k (v / 10) else v
  end.

(** The exponent form of a decimal of more than 21 digits: [d.ddde+N]. *)
Definition exponent_form (v : Z) : string :=
  let e := decimal (digits10 v - 1) in
  match decimal (strip_zeros (Z.to_nat (digits10 v)) v) with
  | String d EmptyString => String d ("e+" ++ e)
  | String d rest => String d ("." ++ rest ++ "e+" ++ e)
  | EmptyString => EmptyString
  end.

(** [Number.prototype.toString] on a double with an integer value: the
    shortest digits that read back as the same double, padded with zeros
    below 1e21 and in exponent form from there on. Up to
    [MAX_SAFE_INTEGER] these are the digits of the integer itself. *)
Definition toString (n : Z) : string :=
  let v := shortest_decimal (Z.abs n) in
  let digits := if v <? 10 ^ 21 then decimal v else exponent_form v in
  if n <? 0 then "-" ++ digits else digits.

Fixpoint repeat_char (c : ascii) (n : nat) : string :=
  match n with
  | O => EmptyString
  | S k => String c (repeat_char c k)
  end.

(** [s.padStart(width, c)] for a one character filler. *)
Definition padStart (width : nat) (c : ascii) (s : string) : string :=
  repeat_char c (width - String.length s) ++ s.

Definition padZero (num : Z) : string := padStart 2 "0"%char (toString num).

Definition formatTime (ms : Z) : string :=
  let totalSeconds := floor_quotient ms 1000 in
  let hours := floor_quotient totalSeconds 3600 in
  let minutes := floor_quotient (Z.rem totalSeconds 3600) 60 in
  let seconds := Z.rem totalSeconds 60 in
  padZero hours ++ ":" ++ padZero minutes ++ ":" ++ padZero seconds.

(** ** Vocabulary of the properties *)

(** The phase, derived from the two booleans of the source. *)
Inductive Phase := idle | running | paused.

Definition phase (st : TimerState) : Phase :=
  if isRunning st then running
  else if isPaused st then paused
  else idle.

(** A nullable field is absent when it is [null]. *)
Definition absent {A} (x : option A) : Prop := x = None.
Definition present {A} (x : option A) : Prop := x <> None.

(** The timer states written to storage, most recent first. *)
Definition writes (w : World) : list TimerState :=
  flat_map (fun e => match e with StorageSet st => [st] | Fetch _ _ _ => [] end) (w_log w).

(** The requests sent to the remote store, most recent first. *)
Definition requests (w : World) : list (Method * string) :=
  flat_map (fun e => match e with Fetch m ep _ => [(m, ep)] | StorageSet _ => [] end) (w_log w).

(** The request for the schema of the work sessions database. *)
Definition schema_request (cfg : Settings) : Method * string :=
  (GET, "/databases/" ++ workSessionsDataSourceId cfg).

(** A session record is active when it has no end date. *)
Definition active (r : RemoteSession) : bool :=
  match rs_end r with
  | None => true
  | Some _ => false
  end.

Definition open_sessions (db : list RemoteSession) : list RemoteSession :=
  filter active db.

Definition open_sessions_of (task : string) (db : list RemoteSession) : list RemoteSession :=
  filter (fun r => active r && (rs_task r =? task)%string) db.

(** What a computation leaves alone besides the remote store and the
    request log: the storage, the badge and the alarm. *)
Definition untouched (w w' : World) : Prop :=
  w_settings w' = w_settings w /\ w_timer w' = w_timer w /\
  w_badge w' = w_badge w /\ w_alarm w' = w_alarm w /\ writes w' = writes w.

(** The remote create or close call a transition issues from a world, when
    its guards let it reach one. *)
Definition remote_call (message : Message) (env : Env) (w : World) : option (M unit) :=
  match w_settings w with
  | None => None
  | Some cfg =>
      let state := stored_state w in
      match message with
      | START_TIMER payload =>
          Some (createWorkSession cfg (payloadTaskId payload) (payloadTaskTitle payload) env ;;;
                ret tt)
      | PAUSE_TIMER | STOP_TIMER =>
          match currentSessionId state with
          | Some sessionId =>
              if isRunning state && truthy_string (currentSessionId state)
              then Some (endWorkSession cfg sessionId env)
              else None
          | None => None
          end
      | RESUME_TIMER =>
          match taskId state with
          | Some task =>
              if isPaused state && truthy_string (taskId state)
              then Some (createWorkSession cfg task (title_or_untitled (taskTitle state)) env ;;;
                         ret tt)
              else None
          | None => None
          end
      | GET_STATE | STATE_UPDATE | SETTINGS_UPDATE => None
      end
  end.

(** The invariant of the data model. *)
Definition timer_invariant (st : TimerState) : Prop :=
  (absent (currentSessionId st) <-> absent (sessionStartTime st)) /\
  (isRunning st = false -> absent (currentSessionId st) /\ absent (sessionStartTime st)) /\
  (absent (taskId st) <-> phase st = idle).

(** The three shapes a stored timer state has. *)
Inductive shape : TimerState -> Prop :=
| shape_idle : shape DEFAULT_TIMER_STATE
| shape_running task title session started total :
    shape {| isRunning := true; isPaused := false; taskId := Some task;
             taskTitle := title; currentSessionId := Some session;
             sessionStartTime := Some started; previousTotal := total |}
| shape_paused task title total :
    shape {| isRunning := false; isPaused := true; taskId := Some task;
             taskTitle := title; currentSessionId := None;
             sessionStartTime := None; previousTotal := total |}.

(** The transitions among the messages. *)
Definition is_transition (message : Message) : bool :=
  match message with
  | START_TIMER _ | PAUSE_TIMER | RESUME_TIMER | STOP_TIMER => true
  | GET_STATE | STATE_UPDATE | SETTINGS_UPDATE => false
  end.

(** A required settings field is missing. *)
Definition missing_required (cfg : option Settings) : Prop :=
  match cfg with
  | None => True
  | Some c => apiKey c = "" \/ tasksDataSourceId c = "" \/ workSessionsDataSourceId c = ""
  end.

(** A transition refuses to start: it throws, and neither a request nor a
    write has happened. *)
Definition refuses (message : Message) (env : Env) (w : World) : Prop :=
  let (r, w') := dispatch message env w in
  (exists e, r = Err e) /\ requests w' = requests w /\ writes w' = writes w.

(** Four conditions, each equivalent to every other. *)
Definition pairwise_equivalent (P Q R S : Prop) : Prop :=
  (P <-> Q) /\ (P <-> R) /\ (P <-> S) /\ (Q <-> R) /\ (Q <-> S) /\ (R <-> S).

Definition idle_equivalences (st : TimerState) : Prop :=
  pairwise_equivalent (phase st = idle) (absent (taskId st))
    (absent (currentSessionId st)) (absent (sessionStartTime st)).

(** The state [pause] writes from a running state whose interval began at
    [started], at clock reading [t]. *)
Definition paused_from (st : TimerState) (started t : Z) : TimerState :=
  {| isRunning := false; isPaused := true;
     taskId := taskId st; taskTitle := taskTitle st;
     currentSessionId := None; sessionStartTime := None;
     previousTotal := previousTotal st + (t - started) |}.

(** ** Sample inputs *)

Definition sample_settings : Settings := {|
  apiKey := "secret";
  tasksDataSourceId := "tasks-db";
  tasksDataSourceName := "Tasks";
  statusPropertyId := "st";
  statusPropertyName := "Status";
  sessionsPropertyId := "se";
  sessionsPropertyName := "Sessions";
  workSessionsDataSourceId := "sessions-db";
  workSessionsDataSourceName := "Work sessions";
  startDatePropertyId := "sd";
  startDatePropertyName := "Start";
  endDatePropertyId := "ed";
  endDatePropertyName := "End";
  theme := system
|}.

(** The same bundle without a credential. *)
Definition keyless_settings : Settings := {|
  apiKey := "";
  tasksDataSourceId := "tasks-db";
  tasksDataSourceName := "Tasks";
  statusPropertyId := "st";
  statusPropertyName := "Status";
  sessionsPropertyId := "se";
  sessionsPropertyName := "Sessions";
  workSessionsDataSourceId := "sessions-db";
  workSessionsDataSourceName := "Work sessions";
  startDatePropertyId := "sd";
  startDatePropertyName := "Start";
  endDatePropertyId := "ed";
  endDatePropertyName := "End";
  theme := system
|}.

Definition sample_schema : list DbProperty :=
  [ {| prop_id := "a"; prop_name := "Task"; prop_type := "relation";
       prop_relation := Some "tasks-db" |};
    {| prop_id := "b"; prop_name := "Name"; prop_type := "title";
       prop_relation := None |} ].

(** A remote store that answers every request; a created record gets [id]. *)
Definition env_up (t : Z) (id : string) : Env := {|
  now := t; stamp := t;
  databaseReply := Ok sample_schema;
  pageReply := Ok [("Sessions", {| page_relation := Some [] |})];
  createReply := Ok id;
  patchReply := Ok tt
|}.

(** A remote store that fails every request. *)
Definition env_down (t : Z) : Env := {|
  now := t; stamp := t;
  databaseReply := Err "Notion API error: 500";
  pageReply := Err "Notion API error: 500";
  createReply := Err "Notion API error: 500";
  patchReply := Err "Notion API error: 500"
|}.

Definition sample_payload : StartTimerPayload :=
  {| payloadTaskId := "T1"; payloadTaskTitle := "Write report"; payloadPreviousTotal := 0 |}.

(** Task T1 started at clock reading [t]. *)
Definition started_at (t : Z) : World :=
  run [SaveSettings sample_settings; Deliver (START_TIMER sample_payload) (env_up t "s1")]
      (installed None []).

(** Task T1 started, the remote store naming the new record by the empty
    string. *)
Definition started_unnamed : World :=
  run [SaveSettings sample_settings; Deliver (START_TIMER sample_payload) (env_up 1000 "")]
      (installed None []).

(** Task T1 started and then paused. *)
Definition paused_world : World :=
  step (started_at 1000) (Deliver PAUSE_TIMER (env_up 6000 "")).

Definition sample_ui : Ui := {| currentView := tasks; errorMessage := None |}.

(** ** Call discipline for the remote sessions *)

(** The step is a start request that arrives while the timer is running. *)
Definition starts_while_running (w : World) (s : Step) : bool :=
  match s with
  | Deliver (START_TIMER _) _ => isRunning (stored_state w)
  | _ => false
  end.

(** The remote store never names a created record by the empty string. *)
Definition names_created_record (s : Step) : Prop :=
  match s with
  | Deliver _ env => createReply env <> Ok ""
  | SaveSettings _ => True
  end.

Fixpoint disciplined (w : World) (steps : list Step) : Prop :=
  match steps with
  | [] => True
  | s :: rest =>
      starts_while_running w s = false /\ names_created_record s /\
      disciplined (step w s) rest
  end.

(** The stored state names the open records of the remote store. *)
Definition tracks_open_sessions (w : World) : Prop :=
  shape (stored_state w) /\
  map rs_id (open_sessions (w_remote w)) =
    match currentSessionId (stored_state w) with
    | Some session => [session]
    | None => []
    end /\
  (isRunning (stored_state w) = true ->
   w_settings w <> None /\ truthy_string (currentSessionId (stored_state w)) = true).

(** Task T1 started twice in a row. *)
Definition started_twice : World :=
  run [SaveSettings sample_settings;
       Deliver (START_TIMER sample_payload) (env_up 1000 "s1");
       Deliver (START_TIMER sample_payload) (env_up 2000 "s2")]
      (installed None []).

(** ** Reading a formatted time *)

(** The number a string of decimal digits denotes; [None] for the empty
    string and for a string with any other character. *)
Definition numeral_value (s : string) : option Z :=
  option_map Z.of_uint (NilZero.uint_of_string s).

(** * The rest of the worker, the popup and the time helpers *)

(** ** The tick alarm and the start-up listeners ([service-worker.ts]) *)

Definition TIMER_ALARM_NAME : string := "notion_time_tracker_tick".

(** [chrome.alarms.onAlarm]: a tick of the timer alarm redraws the badge
    of a running timer. *)
Definition onAlarm (name : string) : M unit :=
  if (name =? TIMER_ALARM_NAME)%string then
    state <- getTimerState ;;
    if isRunning state then updateBadge state else ret tt
  else ret tt.

(** [chrome.runtime.onStartup] *)
Definition onStartup : M unit :=
  state <- getTimerState ;;
  updateBadge state ;;;
  if isRunning state then modify (with_alarm true) else ret tt.

(** [chrome.runtime.onInstalled] *)
Definition onInstalled : M unit :=
  state <- getTimerState ;;
  updateBadge state.

(** What the browser keeps of the worker's indicators when it starts again
    or when the extension is installed or updated: the badge text set
    through [chrome.action] and the alarms created through
    [chrome.alarms]. Neither is kept in [chrome.storage]; an update of the
    extension clears its alarms. *)
Record Restart := {
  badge_kept : bool;
  alarms_kept : bool
}.

Definition restarted (r : Restart) (w : World) : World :=
  with_badge (if badge_kept r then w_badge w else BadgeEmpty)
    (with_alarm (w_alarm w && alarms_kept r) w).

(** Everything the worker reacts to. The start-up and install listeners
    run on what the browser kept. *)
Inductive Event :=
| Requested (s : Step)
| AlarmFired (name : string)
| BrowserStarted (kept : Restart)
| ExtensionInstalled (kept : Restart).

Definition react (w : World) (ev : Event) : World :=
  match ev with
  | Requested s => step w s
  | AlarmFired name => snd (onAlarm name w)
  | BrowserStarted kept => snd (onStartup (restarted kept w))
  | ExtensionInstalled kept => snd (onInstalled (restarted kept w))
  end.

Definition play (events : list Event) (w : World) : World := fold_left react events w.

(** The badge [updateBadge] draws for a state. *)
Definition badge_of (st : TimerState) : Badge :=
  match phase st with
  | running => BadgeRunning
  | paused => BadgePaused
  | idle => BadgeEmpty
  end.

(** The schema reply holds a named relation property to the tasks database. *)
Definition relation_found (cfg : Settings) (env : Env) : bool :=
  match databaseReply env with
  | Ok db =>
      match name_or_null
              (find (fun prop => (prop_type prop =? "relation")%string
                                 && option_string_eqb (prop_relation prop)
                                      (tasksDataSourceId cfg)) db) with
      | Some _ => true
      | None => false
      end
  | Err _ => false
  end.

(** The schema reply holds a named title property. *)
Definition title_found (env : Env) : bool :=
  match databaseReply env with
  | Ok db =>
      match name_or_null (find (fun prop => (prop_type prop =? "title")%string) db) with
      | Some _ => true
      | None => false
      end
  | Err _ => false
  end.

(** The number of sessions the task page lists, as
    [getExistingSessionCount] reads it. *)
Definition listed_sessions (cfg : Settings) (env : Env) : nat :=
  match pageReply env with
  | Ok page =>
      match lookup_property (sessionsPropertyName cfg) page with
      | Some {| page_relation := Some ids |} => List.length ids
      | _ => 0%nat
      end
  | Err _ => 0%nat
  end.

(** ** The popup's view of the timer ([stores.ts], [TimerDisplay.svelte]) *)

(** [getTimerStateFromWorker]; [None] stands for the [undefined] that
    [response.timerState] is on a response without that field. *)
Definition getTimerStateFromWorker (lastError : option TransportError) (env : Env) (w : World)
    : option TimerState * World :=
  match sendMessage lastError GET_STATE env w with
  | (Resolved (SnapshotResponse st), w1) => (Some st, w1)
  | (Resolved _, w1) => (None, w1)
  | (Rejected _, w1) => (Some DEFAULT_TIMER_STATE, w1)
  end.

(** The view [initializeStores] opens the popup on. *)
Definition opening_view (saved : TimerState) : View :=
  if truthy_string (taskId saved) && (isRunning saved || isPaused saved)
  then timer else tasks.

(** [getElapsedTime], at clock reading [clock]. *)
Definition getElapsedTime (clock : Z) (startTimestamp : option Z) : Z :=
  match startTimestamp with
  | Some started => if truthy_number startTimestamp then clock - started else 0
  | None => 0
  end.

(** The total [updateDisplay] of the timer display formats, at [clock]. *)
Definition displayed_total (clock : Z) (st : TimerState) : Z :=
  match sessionStartTime st with
  | Some started =>
      if isRunning st && truthy_number (sessionStartTime st)
      then previousTotal st + (clock - started)
      else previousTotal st
  | None => previousTotal st
  end.

Definition updateDisplay (clock : Z) (st : TimerState) : string :=
  formatTime (displayed_total clock st).

(** ** More of the time helpers ([lib/time.ts]) *)

Definition formatTimeShort (ms : Z) : string :=
  let totalMinutes := floor_quotient ms 60000 in
  let hours := floor_quotient totalMinutes 60 in
  let minutes := Z.rem totalMinutes 60 in
  if 0 <? hours then
    if 0 <? minutes
    then toString hours ++ "h " ++ toString minutes ++ "m"
    else toString hours ++ "h"
  else if 0 <? minutes then toString minutes ++ "m"
  else toString (floor_quotient ms 1000) ++ "s".

(** A work session as the popup reads it from the remote store. *)
Record WorkSessionWithStatus := {
  ws_id : string;
  ws_taskId : string;
  ws_startDate : option string;
  ws_endDate : option string;
  ws_isActive : bool
}.

Definition truthy_text (s : string) : bool := negb (s =? "")%string.

(** The loop of [calculateTotalTime]; [getTime] stands for
    [new Date(iso).getTime()]. *)
Fixpoint total_time_loop (getTime : string -> Z) (sessions : list WorkSessionWithStatus)
    (completedTime : Z) (activeSession : option (string * Z)) : Z * option (string * Z) :=
  match sessions with
  | [] => (completedTime, activeSession)
  | session :: rest =>
      if truthy_string (ws_startDate session) then
        let start := match ws_startDate session with
                     | Some iso => getTime iso
                     | None => 0
                     end in
        if ws_isActive session && truthy_text (ws_id session) then
          total_time_loop getTime rest completedTime (Some (ws_id session, start))
        else
          match ws_endDate session with
          | Some iso =>
              if truthy_string (ws_endDate session)
              then total_time_loop getTime rest (completedTime + (getTime iso - start))
                     activeSession
              else total_time_loop getTime rest completedTime activeSession
          | None => total_time_loop getTime rest completedTime activeSession
          end
      else total_time_loop getTime rest completedTime activeSession
  end.

Definition calculateTotalTime (getTime : string -> Z)
    (sessions : list WorkSessionWithStatus) : Z * option (string * Z) :=
  total_time_loop getTime sessions 0 None.

(** ** Reading work sessions ([lib/notion.ts]) *)

(** A property of a fetched page: its type, the start of its date and the
    ids of its relation, where it has them. *)
Record PageValue := {
  pv_type : string;
  pv_date : option string;
  pv_relation : option (list string)
}.

Record PageResponse := {
  page_id : string;
  page_properties : list (string * PageValue)
}.

(** [prop?.date?.start] *)
Definition date_start (name : string) (page : PageResponse) : option string :=
  match find (fun kv => (fst kv =? name)%string) (page_properties page) with
  | Some (_, value) => pv_date value
  | None => None
  end.

(** [x || null] on a string that may be missing *)
Definition text_or_null (x : option string) : option string :=
  if truthy_string x then x else None.

(** [relationProp?.relation?.[0]?.id || ''] *)
Definition first_relation (page : PageResponse) : string :=
  match find (fun kv => (pv_type (snd kv) =? "relation")%string) (page_properties page) with
  | Some (_, {| pv_relation := Some (first :: _) |}) => first
  | _ => ""
  end.

(** One element of the [Promise.all] of [getWorkSessions]. *)
Definition read_session (fetchPage : string -> outcome PageResponse)
    (startName endName id : string) : option WorkSessionWithStatus :=
  match fetchPage id with
  | Ok page =>
      let hasStart := truthy_string (date_start startName page) in
      let hasEnd := truthy_string (date_start endName page) in
      Some {| ws_id := page_id page;
              ws_taskId := first_relation page;
              ws_startDate := text_or_null (date_start startName page);
              ws_endDate := text_or_null (date_start endName page);
              ws_isActive := hasStart && negb hasEnd |}
  | Err _ => None
  end.

(** [getWorkSessions]; [fetchPage] is the reply to [GET /pages/{id}]. *)
Definition getWorkSessions (fetchPage : string -> outcome PageResponse)
    (sessionIds : list string) (startName endName : string)
    : list WorkSessionWithStatus :=
  match sessionIds with
  | [] => []
  | _ =>
      flat_map (fun id => match read_session fetchPage startName endName id with
                          | Some s => [s]
                          | None => []
                          end) sessionIds
  end.

(** ** The task list of the popup ([views/TaskList.svelte]) *)

Record NotionTask := {
  task_id : string;
  task_title : string;
  task_sessionsRelation : list string;
  task_totalTrackedTime : Z;
  task_lastEditedTime : string;
  task_activeSession : option (string * Z)   (* id and start time *)
}.

(** What [loadTasks] makes of one queried task. *)
Definition with_tracked_time (getTime : string -> Z)
    (fetchPage : string -> outcome PageResponse) (cfg : Settings) (task : NotionTask)
    : NotionTask :=
  match task_sessionsRelation task with
  | [] =>
      {| task_id := task_id task; task_title := task_title task;
         task_sessionsRelation := task_sessionsRelation task;
         task_totalTrackedTime := 0;
         task_lastEditedTime := task_lastEditedTime task;
         task_activeSession := None |}
  | _ =>
      let sessions := getWorkSessions fetchPage (task_sessionsRelation task)
                        (startDatePropertyName cfg) (endDatePropertyName cfg) in
      let (completedTime, activeSession) := calculateTotalTime getTime sessions in
      {| task_id := task_id task; task_title := task_title task;
         task_sessionsRelation := task_sessionsRelation task;
         task_totalTrackedTime := completedTime;
         task_lastEditedTime := task_lastEditedTime task;
         task_activeSession := activeSession |}
  end.

(** The time a task item shows at clock reading [clock]. *)
Definition displayTime (clock : Z) (task : NotionTask) : Z :=
  match task_activeSession task with
  | Some (_, startTime) => task_totalTrackedTime task + (clock - startTime)
  | None => task_totalTrackedTime task
  end.

(** The popup's [endActiveSession] ([lib/notion.ts]). *)
Definition endActiveSession (key sessionId : string) (env : Env) : M unit :=
  notionRequest key PATCH ("/pages/" ++ sessionId) (patchReply env) ;;;
  modify (fun w => with_remote (server_close sessionId (stamp env) (w_remote w)) w).

Record TaskList := {
  tl_ui : Ui;
  tl_showSwitchModal : bool;
  tl_pendingTask : option NotionTask
}.

Definition with_ui (ui : Ui) (tl : TaskList) : TaskList :=
  {| tl_ui := ui; tl_showSwitchModal := tl_showSwitchModal tl;
     tl_pendingTask := tl_pendingTask tl |}.

(** [startTrackingTask]: [penv] answers the popup's own request, [wenv]
    the worker's. *)
Definition startTrackingTask (lastError : option TransportError) (cfg : Settings)
    (task : NotionTask) (penv wenv : Env) (ui : Ui) (w : World) : Ui * World :=
  match task_activeSession task with
  | Some (activeId, startTime) =>
      match endActiveSession (apiKey cfg) activeId penv w with
      | (Ok _, w1) =>
          let activeSessionTime := now penv - startTime in
          let newTotalTime := task_totalTrackedTime task + activeSessionTime in
          startTimer lastError (task_id task) (task_title task) newTotalTime wenv ui w1
      | (Err _, w1) =>
          startTimer lastError (task_id task) (task_title task)
            (task_totalTrackedTime task) wenv ui w1
      end
  | None =>
      startTimer lastError (task_id task) (task_title task)
        (task_totalTrackedTime task) wenv ui w
  end.

(** [handlePlayTask]; [shown] is the popup's copy of the timer state. *)
Definition handlePlayTask (lastError : option TransportError) (cfg : Settings)
    (shown : TimerState) (task : NotionTask) (penv wenv : Env)
    (tl : TaskList) (w : World) : TaskList * World :=
  if option_string_eqb (taskId shown) (task_id task) && isPaused shown then
    let (ui1, w1) := resumeTimer lastError wenv (tl_ui tl) w in
    (with_ui {| currentView := timer; errorMessage := errorMessage ui1 |} tl, w1)
  else if truthy_string (taskId shown)
          && negb (option_string_eqb (taskId shown) (task_id task)) then
    ({| tl_ui := tl_ui tl; tl_showSwitchModal := true; tl_pendingTask := Some task |}, w)
  else
    let (ui1, w1) := startTrackingTask lastError cfg task penv wenv (tl_ui tl) w in
    (with_ui ui1 tl, w1).

(** [handleConfirmSwitch]: [senv] answers the stop, [penv] and [wenv] the
    start that follows. *)
Definition handleConfirmSwitch (stopError startError : option TransportError) (cfg : Settings)
    (senv penv wenv : Env) (tl : TaskList) (w : World) : TaskList * World :=
  match tl_pendingTask tl with
  | None =>
      ({| tl_ui := tl_ui tl; tl_showSwitchModal := false; tl_pendingTask := None |}, w)
  | Some task =>
      let (ui1, w1) := stopTimer stopError senv (tl_ui tl) w in
      let (ui2, w2) := startTrackingTask startError cfg task penv wenv ui1 w1 in
      ({| tl_ui := ui2; tl_showSwitchModal := false; tl_pendingTask := None |}, w2)
  end.

(** ** Vocabulary of the further properties *)

(** The badge is the one of the stored state, an alarm exists only while
    the timer is running, and a running timer has its settings stored.
    With [exact] the alarm exists exactly while the timer is running. *)
Definition indicators_agree (exact : bool) (w : World) : Prop :=
  shape (stored_state w) /\
  w_badge w = badge_of (stored_state w) /\
  (if exact then w_alarm w = isRunning (stored_state w)
   else w_alarm w = true -> isRunning (stored_state w) = true) /\
  (isRunning (stored_state w) = true -> w_settings w <> None).

(** The event is not an install or update that cleared the alarms. *)
Definition alarm_survives (ev : Event) : Prop :=
  match ev with
  | ExtensionInstalled kept => alarms_kept kept = true
  | _ => True
  end.

(** Every start request of a run names its task. *)
Definition tasks_named (steps : list Step) : Prop :=
  forall payload env, In (Deliver (START_TIMER payload) env) steps ->
                      payloadTaskId payload <> "".






(** No character of the string is a colon. *)
Fixpoint colon_free (s : string) : bool :=
  match s with
  | EmptyString => true
  | String c rest => negb (c =? ":")%char && colon_free rest
  end.



(** ** Further sample inputs *)

(** A schema without a relation property. *)
Definition env_unrelated (t : Z) : Env := {|
  now := t; stamp := t;
  databaseReply := Ok [ {| prop_id := "b"; prop_name := "Name"; prop_type := "title";
                           prop_relation := None |} ];
  pageReply := Ok [];
  createReply := Ok "s9";
  patchReply := Ok tt
|}.

(** The task page cannot be fetched; everything else answers. *)
Definition env_pageless (t : Z) (id : string) : Env := {|
  now := t; stamp := t;
  databaseReply := Ok sample_schema;
  pageReply := Err "Notion API error: 404";
  createReply := Ok id;
  patchReply := Ok tt
|}.

(** The remote store refuses to change a page. *)
Definition env_readonly (t : Z) (id : string) : Env := {|
  now := t; stamp := t;
  databaseReply := Ok sample_schema;
  pageReply := Ok [];
  createReply := Ok id;
  patchReply := Err "Notion API error: 409"
|}.


Definition sample_page (id : string) (started ended : option string) : PageResponse := {|
  page_id := id;
  page_properties :=
    [ ("Start", {| pv_type := "date"; pv_date := started; pv_relation := None |});
      ("End", {| pv_type := "date"; pv_date := ended; pv_relation := None |});
      ("Task", {| pv_type := "relation"; pv_date := None; pv_relation := Some ["T1"] |}) ]
|}.

(** Three session pages: one closed, one that fails to load, one open. *)
Definition sample_fetch (id : string) : outcome PageResponse :=
  if (id =? "p1")%string then Ok (sample_page "p1" (Some "10:00") (Some "10:30"))
  else if (id =? "p3")%string then Ok (sample_page "p3" (Some "11:00") None)
  else Err "Notion API error: 404".

(** A clock for the sample dates: minutes since midnight, in milliseconds. *)
Definition sample_clock (iso : string) : Z :=
  if (iso =? "10:00")%string then 36000000
  else if (iso =? "10:30")%string then 37800000
  else if (iso =? "11:00")%string then 39600000
  else 0.

Definition sample_sessions : list WorkSessionWithStatus :=
  getWorkSessions sample_fetch ["p1"; "p2"; "p3"] "Start" "End".

(** Task T2 as the task list holds it, with an active session seen in the
    remote store. *)
Definition sample_task (active : option (string * Z)) : NotionTask := {|
  task_id := "T2";
  task_title := "Review";
  task_sessionsRelation := ["p1"; "p2"; "p3"];
  task_totalTrackedTime := 1800000;
  task_lastEditedTime := "2024-01-01T00:00:00.000Z";
  task_activeSession := active
|}.

Definition sample_list (pending : option NotionTask) : TaskList :=
  {| tl_ui := sample_ui; tl_showSwitchModal := true; tl_pendingTask := pending |}.

(** ** The remote session client, case by case *)

Lemma createWorkSession_cases cfg task title env w :
  (exists e w', createWorkSession cfg task title env w = (Err e, w') /\
                untouched w w' /\ w_remote w' = w_remote w) \/
  (exists id number w', createWorkSession cfg task title env w = (Ok id, w') /\
                createReply env = Ok id /\ untouched w w' /\
                w_remote w' = server_create id task number (stamp env) (w_remote w)).
Proof.
  unfold createWorkSession, getWorkSessionsDbInfo, getExistingSessionCount,
    catch_default, notionRequest, bind, ret, throw, modify, untouched, writes.
  destruct (databaseReply env) as [db | e]; simpl.
  2:{ left. do 2 eexists. repeat split; reflexivity. }
  destruct (name_or_null (find _ db)) as [rel | ]; simpl.
  2:{ left. do 2 eexists. repeat split; reflexivity. }
  destruct (pageReply env) as [page | e]; simpl;
    (destruct (createReply env) as [id | e']; simpl;
     [ right; do 3 eexists | left; do 2 eexists ]; repeat split; reflexivity).
Qed.

Lemma endWorkSession_cases cfg sessionId env w :
  (exists e w', endWorkSession cfg sessionId env w = (Err e, w') /\
                patchReply env = Err e /\
                untouched w w' /\ w_remote w' = w_remote w) \/
  (exists w', endWorkSession cfg sessionId env w = (Ok tt, w') /\
              patchReply env = Ok tt /\
              untouched w w' /\
              w_remote w' = server_close sessionId (stamp env) (w_remote w) /\
              requests w' = (PATCH, "/pages/" ++ sessionId) :: requests w).
Proof.
  unfold endWorkSession, notionRequest, bind, modify, untouched, writes, requests.
  destruct (patchReply env) as [[] | e]; simpl.
  - right. eexists. repeat split; reflexivity.
  - left. do 2 eexists. repeat split; reflexivity.
Qed.

Arguments createWorkSession : simpl never.
Arguments endWorkSession : simpl never.

Ltac unfold_handlers :=
  unfold handleMessage, dispatch, handleStartTimer, handlePauseTimer,
    handleResumeTimer, handleStopTimer, handleGetState,
    bind, getSettings, getTimerState, saveTimerState, updateBadge,
    modify, ret, throw.

(** Splits on the outcome of the remote create call that occurs in the goal. *)
Ltac split_create cfg task title env w :=
  let e := fresh "e" in
  let id := fresh "id" in
  let number := fresh "number" in
  let w1 := fresh "w1" in
  let Hcall := fresh "Hcall" in
  let Hreply := fresh "Hreply" in
  let Hsame := fresh "Hsame" in
  let Hdb := fresh "Hdb" in
  destruct (createWorkSession_cases cfg task title env w)
    as [(e & w1 & Hcall & Hsame & Hdb) | (id & number & w1 & Hcall & Hreply & Hsame & Hdb)];
  rewrite ?Hcall in *.

(** Splits on the outcome of the remote close call that occurs in the goal. *)
Ltac split_close cfg session env w :=
  let e := fresh "e" in
  let w1 := fresh "w1" in
  let Hcall := fresh "Hcall" in
  let Hreply := fresh "Hreply" in
  let Hsame := fresh "Hsame" in
  let Hdb := fresh "Hdb" in
  let Hreq := fresh "Hreq" in
  destruct (endWorkSession_cases cfg session env w)
    as [(e & w1 & Hcall & Hreply & Hsame & Hdb) | (w1 & Hcall & Hreply & Hsame & Hdb & Hreq)];
  rewrite ?Hcall in *.

(** ** Remote failure *)

(** C1. For each of start, pause, resume and stop: when the remote create
    or close call the transition issues throws, the transition throws the
    same error, the listener answers with that error, the stored timer
    state is the one from before the call and nothing was written. *)
Theorem remote_failure_keeps_stored_state message env w call e :
  remote_call message env w = Some call ->
  fst (call w) = Err e ->
  exists w',
    dispatch message env w = (Err e, w') /\
    handleMessage message env w = (ErrorResponse e, w') /\
    w_timer w' = w_timer w /\
    writes w' = writes w.
Proof.
  unfold remote_call. intros Hcall Hfails.
  destruct (w_settings w) as [cfg | ] eqn:Hcfg; [ | discriminate ].
  destruct message; try discriminate.
  - (* start *)
    injection Hcall as <-. unfold bind in Hfails.
    unfold_handlers. rewrite Hcfg.
    split_create cfg (payloadTaskId payload) (payloadTaskTitle payload) env w;
      simpl in Hfails; [ | discriminate ].
    injection Hfails as <-. exists w1.
    destruct Hsame as (_ & Ht & _ & _ & Hw). auto.
  - (* pause *)
    destruct (currentSessionId (stored_state w)) as [session | ] eqn:Hsid; [ | discriminate ].
    destruct (isRunning (stored_state w) && truthy_string (Some session)) eqn:Hguard;
      [ | discriminate ].
    injection Hcall as <-.
    unfold_handlers. rewrite Hcfg, Hsid, Hguard.
    split_close cfg session env w; simpl in Hfails; [ | discriminate ].
    injection Hfails as <-. exists w1.
    destruct Hsame as (_ & Ht & _ & _ & Hw). auto.
  - (* resume *)
    destruct (taskId (stored_state w)) as [task | ] eqn:Htask; [ | discriminate ].
    destruct (isPaused (stored_state w) && truthy_string (Some task)) eqn:Hguard;
      [ | discriminate ].
    injection Hcall as <-. unfold bind in Hfails.
    unfold_handlers. rewrite Hcfg, Htask, Hguard.
    split_create cfg task (title_or_untitled (taskTitle (stored_state w))) env w;
      simpl in Hfails; [ | discriminate ].
    injection Hfails as <-. exists w1.
    destruct Hsame as (_ & Ht & _ & _ & Hw). auto.
  - (* stop *)
    destruct (currentSessionId (stored_state w)) as [session | ] eqn:Hsid; [ | discriminate ].
    destruct (isRunning (stored_state w) && truthy_string (Some session)) eqn:Hguard;
      [ | discriminate ].
    injection Hcall as <-.
    unfold_handlers. rewrite Hcfg, Hsid, Hguard.
    split_close cfg session env w; simpl in Hfails; [ | discriminate ].
    injection Hfails as <-. exists w1.
    destruct Hsame as (_ & Ht & _ & _ & Hw). auto.
Qed.

(** ** The shape of stored states *)

Lemma untouched_stored_state w w' : untouched w w' -> stored_state w' = stored_state w.
Proof. intros (_ & Ht & _). unfold stored_state. now rewrite Ht. Qed.

Lemma step_shape w s : shape (stored_state w) -> shape (stored_state (step w s)).
Proof.
  intros Hshape. destruct s as [message env | cfg]; [ | exact Hshape ].
  unfold step.
  destruct message; unfold_handlers; try exact Hshape.
  - (* start *)
    destruct (w_settings w) as [cfg | ]; [ | exact Hshape ].
    split_create cfg (payloadTaskId payload) (payloadTaskTitle payload) env w; simpl.
    + now rewrite (untouched_stored_state _ _ Hsame).
    + constructor.
  - (* pause *)
    destruct (w_settings w) as [cfg | ]; [ | exact Hshape ].
    remember (stored_state w) as st eqn:Hst.
    destruct Hshape as [ | task title session started total | task title total];
      simpl; try (rewrite <- Hst; constructor).
    destruct (negb (session =? "")%string); simpl; [ | rewrite <- Hst; constructor ].
    split_close cfg session env w; simpl.
    + rewrite (untouched_stored_state _ _ Hsame), <- Hst. constructor.
    + constructor.
  - (* resume *)
    destruct (w_settings w) as [cfg | ]; [ | exact Hshape ].
    remember (stored_state w) as st eqn:Hst.
    destruct Hshape as [ | task title session started total | task title total];
      simpl; try (rewrite <- Hst; constructor).
    destruct (negb (task =? "")%string); simpl; [ | rewrite <- Hst; constructor ].
    split_create cfg task (title_or_untitled title) env w; simpl.
    + rewrite (untouched_stored_state _ _ Hsame), <- Hst. constructor.
    + constructor.
  - (* stop *)
    destruct (w_settings w) as [cfg | ]; [ | constructor ].
    remember (stored_state w) as st eqn:Hst.
    destruct Hshape as [ | task title session started total | task title total];
      simpl; try constructor.
    destruct (negb (session =? "")%string); simpl; [ | constructor ].
    split_close cfg session env w; simpl.
    + rewrite (untouched_stored_state _ _ Hsame), <- Hst. constructor.
    + constructor.
Qed.

Lemma run_shape steps : forall w, shape (stored_state w) -> shape (stored_state (run steps w)).
Proof.
  induction steps as [ | s steps IH]; intros w Hshape; simpl.
  - exact Hshape.
  - apply IH, step_shape, Hshape.
Qed.

Lemma installed_shape cfg db : shape (stored_state (installed cfg db)).
Proof. constructor. Qed.

Lemma shape_invariant st : shape st -> timer_invariant st.
Proof.
  unfold timer_invariant, absent, phase.
  destruct 1; simpl; repeat split; intros; try discriminate; auto.
Qed.

(** C2. Every timer state reached from the state at install by start,
    pause, resume, stop and get-state requests (with any replies of the
    remote store and any settings saved in between) has its session id and
    its session start both present or both absent, has both absent when it
    is not running, and has no task exactly when it is idle. *)
Theorem reachable_timer_invariant cfg db steps :
  timer_invariant (stored_state (run steps (installed cfg db))).
Proof.
  apply shape_invariant, run_shape, installed_shape.
Qed.

(** C9, as stated, fails in the paused state: the task is still set while
    the session id and the session start are cleared. *)
Lemma paused_state_breaks_idle_equivalences :
  ~ idle_equivalences (stored_state paused_world).
Proof.
  unfold idle_equivalences, pairwise_equivalent, absent.
  intros (_ & _ & _ & Htask_session & _).
  assert (Hnone : taskId (stored_state paused_world) = None)
    by (apply Htask_session; reflexivity).
  vm_compute in Hnone. discriminate.
Qed.

(** C9, amended. In every reachable state: the phase is idle exactly when
    there is no task; the session id is absent exactly when the session
    start is, and exactly when the phase is not running; and in the idle
    phase all three are absent. *)
Theorem reachable_idle_equivalences cfg db steps :
  let st := stored_state (run steps (installed cfg db)) in
  (phase st = idle <-> absent (taskId st)) /\
  (absent (currentSessionId st) <-> absent (sessionStartTime st)) /\
  (absent (currentSessionId st) <-> phase st <> running) /\
  (phase st = idle ->
   absent (taskId st) /\ absent (currentSessionId st) /\ absent (sessionStartTime st)).
Proof.
  intros st.
  assert (Hshape : shape st) by apply run_shape, installed_shape.
  unfold absent, phase.
  destruct Hshape; simpl; repeat split; intros; try discriminate; auto;
    exfalso; auto.
Qed.

(** ** Missing settings *)

Lemma createWorkSession_requests cfg task title env w :
  exists more,
    requests (snd (createWorkSession cfg task title env w)) =
    (more ++ schema_request cfg :: requests w)%list.
Proof.
  unfold createWorkSession, getWorkSessionsDbInfo, getExistingSessionCount,
    catch_default, notionRequest, bind, ret, throw, modify, requests, schema_request.
  destruct (databaseReply env) as [db | e]; simpl.
  2:{ now exists []. }
  destruct (name_or_null (find _ db)) as [rel | ]; simpl.
  2:{ now exists []. }
  destruct (pageReply env) as [page | e]; simpl;
    destruct (createReply env) as [id | e']; simpl;
    now exists [(POST, "/pages"); (GET, ("/pages/" ++ task)%string)].
Qed.

(** C3, as stated, fails three ways: with the bundle absent, stop writes
    the default state and pause returns without an error; with a bundle
    whose credential is empty, start sends its requests. *)
Lemma missing_settings_not_refused :
  (missing_required (w_settings (installed None [])) /\
   ~ refuses STOP_TIMER (env_up 0 "s1") (installed None [])) /\
  (missing_required (w_settings (installed None [])) /\
   ~ refuses PAUSE_TIMER (env_up 0 "s1") (installed None [])) /\
  (missing_required (w_settings (installed (Some keyless_settings) [])) /\
   ~ refuses (START_TIMER sample_payload) (env_up 0 "s1")
       (installed (Some keyless_settings) [])).
Proof.
  repeat split; simpl; auto.
  - intros (_ & _ & Hwrites). vm_compute in Hwrites. discriminate.
  - intros ((e & He) & _). vm_compute in He. discriminate.
  - intros (_ & Hrequests & _). vm_compute in Hrequests. discriminate.
Qed.

(** C3, amended. With the settings bundle absent no transition sends a
    request: start throws "Settings not configured" and leaves the world
    as it was; pause and resume return the stored state, without an error,
    and leave the world as it was; stop writes the default state and
    returns it without an error. With a bundle present start sends the
    schema request whatever the fields of the bundle hold. *)
Theorem transitions_without_settings message env w :
  (w_settings w = None ->
   let (r, w') := dispatch message env w in
   requests w' = requests w /\ w_remote w' = w_remote w /\
   match message with
   | START_TIMER _ => r = Err "Settings not configured" /\ w' = w
   | PAUSE_TIMER | RESUME_TIMER => r = Ok (StateResponse (stored_state w)) /\ w' = w
   | STOP_TIMER =>
       r = Ok (StateResponse DEFAULT_TIMER_STATE) /\
       w_timer w' = Some DEFAULT_TIMER_STATE /\
       writes w' = DEFAULT_TIMER_STATE :: writes w
   | GET_STATE | STATE_UPDATE | SETTINGS_UPDATE => w' = w
   end) /\
  (forall cfg payload,
     w_settings w = Some cfg -> message = START_TIMER payload ->
     exists more,
       requests (snd (dispatch message env w)) =
       (more ++ schema_request cfg :: requests w)%list).
Proof.
  split.
  - intros Hcfg. destruct message; unfold_handlers; rewrite ?Hcfg; simpl; auto.
  - intros cfg payload Hcfg ->. unfold_handlers. rewrite Hcfg.
    destruct (createWorkSession_requests cfg (payloadTaskId payload)
                (payloadTaskTitle payload) env w) as (more & Hmore).
    split_create cfg (payloadTaskId payload) (payloadTaskTitle payload) env w;
      simpl in *; exists more; exact Hmore.
Qed.

(** ** Pause *)

(** C8. Pause on a machine that is not running returns the stored state
    and leaves the world as it was: no request, no write, no error. *)
Theorem pause_when_not_running env w :
  isRunning (stored_state w) = false ->
  handlePauseTimer env w = (Ok (stored_state w), w) /\
  handleMessage PAUSE_TIMER env w = (StateResponse (stored_state w), w).
Proof.
  intros Hidle. unfold_handlers. rewrite Hidle.
  destruct (w_settings w); destruct (currentSessionId (stored_state w)); auto.
Qed.

(** C4, as stated, fails for a running state whose session began at clock
    reading zero: the source's presence test takes the zero for a missing
    start and adds nothing. It also fails for a running state whose
    session id is the empty string: the guard takes it for a missing id
    and pause returns the running state as it is. *)
Lemma pause_from_epoch_start_adds_nothing :
  (let st := stored_state (started_at 0) in
   phase st = running /\
   present (currentSessionId st) /\
   sessionStartTime st = Some 0 /\
   exists st' w',
     handlePauseTimer (env_up 5000 "") (started_at 0) = (Ok st', w') /\
     phase st' = paused /\
     previousTotal st' <> previousTotal st + (5000 - 0)) /\
  (let st := stored_state started_unnamed in
   phase st = running /\
   present (currentSessionId st) /\
   present (sessionStartTime st) /\
   handlePauseTimer (env_up 5000 "") started_unnamed = (Ok st, started_unnamed)).
Proof.
  split.
  - simpl. repeat split; try discriminate.
    eexists. eexists. split; [ vm_compute; reflexivity | ].
    split; [ reflexivity | discriminate ].
  - simpl. repeat split; discriminate.
Qed.

(** C4, amended. From a running state with a non-empty session id and a
    non-zero session start, with settings stored and the remote close
    succeeding, pause at clock reading [now] stores and returns the paused
    state: same task, session id and session start cleared, and the total
    grown by [now - sessionStartTime]. Whatever the request, the stored
    total is left as it was, or grown by pause by the interval it closes,
    or set by start to the payload's total, or reset to zero by stop. *)
Theorem pause_accumulates_interval env w :
  (forall cfg session started,
     w_settings w = Some cfg ->
     isRunning (stored_state w) = true ->
     currentSessionId (stored_state w) = Some session -> session <> "" ->
     sessionStartTime (stored_state w) = Some started -> started <> 0 ->
     patchReply env = Ok tt ->
     exists w',
       handlePauseTimer env w = (Ok (paused_from (stored_state w) started (now env)), w') /\
       stored_state w' = paused_from (stored_state w) started (now env) /\
       phase (stored_state w') = paused /\
       absent (currentSessionId (stored_state w')) /\
       absent (sessionStartTime (stored_state w')) /\
       previousTotal (stored_state w') =
         previousTotal (stored_state w) + (now env - started)) /\
  (forall message,
     let old := previousTotal (stored_state w) in
     let new := previousTotal (stored_state (step w (Deliver message env))) in
     new = old \/
     (message = PAUSE_TIMER /\ isRunning (stored_state w) = true /\
      exists started, sessionStartTime (stored_state w) = Some started /\
                      new = old + (now env - started)) \/
     (exists payload, message = START_TIMER payload /\ new = payloadPreviousTotal payload) \/
     (message = STOP_TIMER /\ new = 0)).
Proof.
  split.
  - intros cfg session started Hcfg Hrun Hsid Hnonempty Hstart Hnonzero Hpatch.
    unfold_handlers. rewrite Hcfg, Hsid, Hrun, Hstart. simpl.
    apply String.eqb_neq in Hnonempty. rewrite Hnonempty.
    apply Z.eqb_neq in Hnonzero. rewrite Hnonzero. simpl.
    split_close cfg session env w; [ congruence | ].
    simpl. eexists. split; [ reflexivity | ].
    unfold absent. simpl. auto.
  - intros message old new. subst old new. unfold step.
    destruct message; unfold_handlers; auto.
    + (* start *)
      destruct (w_settings w) as [cfg | ]; auto.
      split_create cfg (payloadTaskId payload) (payloadTaskTitle payload) env w.
      * left. cbn [snd]. now rewrite (untouched_stored_state _ _ Hsame).
      * simpl. right. right. left. eauto.
    + (* pause *)
      destruct (w_settings w) as [cfg | ]; auto.
      destruct (currentSessionId (stored_state w)) as [session | ]; auto.
      destruct (isRunning (stored_state w)) eqn:Hrun; simpl; auto.
      destruct (negb (session =? "")%string); simpl; auto.
      split_close cfg session env w.
      * left. cbn [snd]. now rewrite (untouched_stored_state _ _ Hsame).
      * simpl. destruct (sessionStartTime (stored_state w)) as [started | ] eqn:Hstart; simpl.
        -- destruct (started =? 0) eqn:Hzero; simpl.
           ++ left. lia.
           ++ right. left. repeat split. exists started. auto.
        -- left. lia.
    + (* resume *)
      destruct (w_settings w) as [cfg | ]; auto.
      destruct (taskId (stored_state w)) as [task | ]; auto.
      destruct (isPaused (stored_state w) && truthy_string (Some task)); auto.
      split_create cfg task (title_or_untitled (taskTitle (stored_state w))) env w.
      * left. cbn [snd]. now rewrite (untouched_stored_state _ _ Hsame).
      * simpl. now left.
    + (* stop *)
      destruct (w_settings w) as [cfg | ]; [ | simpl; auto ].
      destruct (currentSessionId (stored_state w)) as [session | ]; [ | simpl; auto ].
      destruct (isRunning (stored_state w) && truthy_string (Some session));
        [ | simpl; auto ].
      split_close cfg session env w; [ | simpl; auto ].
      left. cbn [snd]. now rewrite (untouched_stored_state _ _ Hsame).
Qed.

(** ** Stop *)

Lemma stop_success_resets env w st w' :
  handleStopTimer env w = (Ok st, w') ->
  st = DEFAULT_TIMER_STATE /\ stored_state w' = DEFAULT_TIMER_STATE.
Proof.
  unfold_handlers.
  destruct (w_settings w) as [cfg | ]; simpl.
  - destruct (currentSessionId (stored_state w)) as [session | ].
    + destruct (isRunning (stored_state w) && truthy_string (Some session)).
      * split_close cfg session env w; simpl; intros H; inversion H; auto.
      * simpl. intros H; inversion H; auto.
    + simpl. intros H; inversion H; auto.
  - intros H; inversion H; auto.
Qed.

Lemma stop_from_default env w :
  stored_state w = DEFAULT_TIMER_STATE ->
  exists w',
    handleStopTimer env w = (Ok DEFAULT_TIMER_STATE, w') /\
    stored_state w' = stored_state w /\
    requests w' = requests w /\
    w_remote w' = w_remote w.
Proof.
  intros Hidle. unfold_handlers. rewrite Hidle.
  destruct (w_settings w); simpl; eexists; repeat split; reflexivity.
Qed.

Lemma stop_twice env w :
  let w1 := snd (handleStopTimer env w) in
  let w2 := snd (handleStopTimer env w1) in
  stored_state w2 = stored_state w1 /\ w_remote w2 = w_remote w1.
Proof.
  intros w1 w2.
  destruct (handleStopTimer env w) as [[st | e] w'] eqn:Hfirst.
  - (* the first stop completed *)
    destruct (stop_success_resets _ _ _ _ Hfirst) as (_ & Hidle).
    destruct (stop_from_default env w' Hidle) as (w'' & Hsecond & Hstate & _ & Hdb).
    subst w1 w2. cbn [snd]. rewrite Hsecond. cbn [snd]. auto.
  - (* the first stop threw: the close failed, and it fails again *)
    subst w1 w2. cbn [snd]. revert Hfirst. unfold_handlers.
    destruct (w_settings w) as [cfg | ] eqn:Hcfg; [ | discriminate ].
    destruct (currentSessionId (stored_state w)) as [session | ] eqn:Hsid; [ | discriminate ].
    destruct (isRunning (stored_state w) && truthy_string (Some session)) eqn:Hguard;
      [ | discriminate ].
    split_close cfg session env w; [ | discriminate ].
    intros Hfirst. injection Hfirst as <- <-.
    pose proof (untouched_stored_state _ _ Hsame) as Hkeep.
    destruct Hsame as (-> & _). rewrite Hkeep, Hcfg, Hsid, Hguard.
    split_close cfg session env w1; [ | congruence ].
    cbn [snd]. rewrite (untouched_stored_state _ _ Hsame), Hkeep. auto.
Qed.

(** C7. Stop on the idle default state returns that state, leaves the
    stored timer state equal to it, and sends no request; so a stop that
    follows a completed stop changes nothing and sends nothing, and two
    stops in a row leave the stored state and the remote store as one stop
    does. *)
Theorem stop_is_idempotent env w :
  (stored_state w = DEFAULT_TIMER_STATE ->
   exists w',
     handleStopTimer env w = (Ok DEFAULT_TIMER_STATE, w') /\
     stored_state w' = stored_state w /\
     requests w' = requests w /\
     w_remote w' = w_remote w) /\
  (forall st w1 again,
     handleStopTimer env w = (Ok st, w1) ->
     exists w2,
       handleStopTimer again w1 = (Ok st, w2) /\
       stored_state w2 = stored_state w1 /\
       requests w2 = requests w1 /\
       w_remote w2 = w_remote w1) /\
  (let w1 := snd (handleStopTimer env w) in
   let w2 := snd (handleStopTimer env w1) in
   stored_state w2 = stored_state w1 /\ w_remote w2 = w_remote w1).
Proof.
  split; [ | split ].
  - apply stop_from_default.
  - intros st w1 again Hfirst.
    destruct (stop_success_resets _ _ _ _ Hfirst) as (-> & Hidle).
    apply stop_from_default, Hidle.
  - apply stop_twice.
Qed.

(** ** The client side *)

(** C6 fails on the code: with the transport up the promise of
    [sendMessage] is resolved whatever the handler did. A start refused
    for missing settings and a start whose remote create call failed both
    resolve with an error descriptor, and [startTimer] then switches to the
    timer view without an error message. *)
Theorem failed_start_is_resolved :
  (forall message env w, exists r w',
     sendMessage None message env w = (Resolved r, w')) /\
  sendMessage None (START_TIMER sample_payload) (env_up 0 "s1") (installed None []) =
    (Resolved (ErrorResponse "Settings not configured"), installed None []) /\
  fst (sendMessage None (START_TIMER sample_payload) (env_down 0)
         (installed (Some sample_settings) [])) =
    Resolved (ErrorResponse "Notion API error: 500") /\
  fst (startTimer None "T1" "Write report" 0 (env_down 0) sample_ui
         (installed (Some sample_settings) [])) =
    {| currentView := timer; errorMessage := None |}.
Proof.
  split; [ | repeat split; reflexivity ].
  intros message env w. unfold sendMessage.
  destruct (handleMessage message env w) as [r w']. eauto.
Qed.

(** ** Open remote sessions *)

Lemma open_sessions_create id task number start db :
  open_sessions (server_create id task number start db) =
  (open_sessions db ++ [{| rs_id := id; rs_task := task; rs_number := number;
                           rs_start := start; rs_end := None |}])%list.
Proof. unfold open_sessions, server_create. now rewrite filter_app. Qed.

Lemma open_sessions_close id finish db :
  open_sessions (server_close id finish db) =
  filter (fun r => negb (rs_id r =? id)%string) (open_sessions db).
Proof.
  unfold open_sessions, server_close.
  induction db as [ | r db IH]; simpl; [ reflexivity | ].
  rewrite IH.
  destruct (rs_id r =? id)%string eqn:Hid; unfold active; simpl;
    destruct (rs_end r); simpl; rewrite ?Hid; reflexivity.
Qed.

Lemma close_the_open_session id finish db :
  map rs_id (open_sessions db) = [id] ->
  open_sessions (server_close id finish db) = [].
Proof.
  intros Hids. rewrite open_sessions_close.
  destruct (open_sessions db) as [ | r [ | r' rest]]; try discriminate.
  simpl in *. injection Hids as ->. now rewrite String.eqb_refl.
Qed.

Lemma open_sessions_of_sublist task db :
  open_sessions_of task db = filter (fun r => (rs_task r =? task)%string) (open_sessions db).
Proof.
  unfold open_sessions_of, open_sessions.
  induction db as [ | r db IH]; simpl; [ reflexivity | ].
  destruct (active r); simpl; rewrite IH; reflexivity.
Qed.

Lemma filter_length_le {A} (f : A -> bool) l :
  (List.length (filter f l) <= List.length l)%nat.
Proof.
  induction l as [ | a l IH]; simpl; [ lia | ].
  destruct (f a); simpl; lia.
Qed.

Lemma tracks_untouched w w' :
  tracks_open_sessions w -> untouched w w' -> w_remote w' = w_remote w ->
  tracks_open_sessions w'.
Proof.
  unfold tracks_open_sessions. intros Hinv Hsame Hdb.
  rewrite (untouched_stored_state _ _ Hsame), Hdb.
  destruct Hsame as (-> & _). exact Hinv.
Qed.

Lemma step_tracks w s :
  tracks_open_sessions w ->
  starts_while_running w s = false -> names_created_record s ->
  tracks_open_sessions (step w s).
Proof.
  intros Hinv Hstart Hnames.
  destruct s as [message env | cfg]; [ | ].
  2:{ destruct Hinv as (Hshape & Hopen & Hrun).
      repeat split; try assumption; try apply Hrun; try assumption.
      simpl. discriminate. }
  unfold step. simpl in Hstart, Hnames.
  destruct message; unfold_handlers; try exact Hinv.
  - (* start, not running *)
    destruct (w_settings w) as [cfg | ] eqn:Hcfg; [ | exact Hinv ].
    split_create cfg (payloadTaskId payload) (payloadTaskTitle payload) env w.
    + apply (tracks_untouched w); assumption.
    + destruct Hinv as (Hshape & Hopen & _).
      destruct Hsame as (Hset & _).
      assert (Hnone : currentSessionId (stored_state w) = None)
        by (destruct Hshape; simpl in *; [ reflexivity | discriminate | reflexivity ]).
      rewrite Hnone in Hopen. apply map_eq_nil in Hopen.
      unfold tracks_open_sessions. simpl.
      rewrite Hdb, open_sessions_create, Hopen, Hset, Hcfg. simpl.
      repeat split; try constructor; try discriminate.
      destruct (id =? "")%string eqn:Hid; [ | reflexivity ].
      apply String.eqb_eq in Hid. congruence.
  - (* pause *)
    destruct (w_settings w) as [cfg | ] eqn:Hcfg; [ | exact Hinv ].
    destruct (currentSessionId (stored_state w)) as [session | ] eqn:Hsid; [ | exact Hinv ].
    destruct (isRunning (stored_state w) && truthy_string (Some session)) eqn:Hguard;
      [ | exact Hinv ].
    split_close cfg session env w.
    + apply (tracks_untouched w); assumption.
    + destruct Hinv as (Hshape & Hopen & _). rewrite Hsid in Hopen.
      unfold tracks_open_sessions. simpl.
      rewrite Hdb, (close_the_open_session _ _ _ Hopen).
      repeat split; try discriminate.
      remember (stored_state w) as st eqn:Hst.
      destruct Hshape; simpl in *; try discriminate. constructor.
  - (* resume *)
    destruct (w_settings w) as [cfg | ] eqn:Hcfg; [ | exact Hinv ].
    destruct (taskId (stored_state w)) as [task | ] eqn:Htask; [ | exact Hinv ].
    destruct (isPaused (stored_state w) && truthy_string (Some task)) eqn:Hguard;
      [ | exact Hinv ].
    split_create cfg task (title_or_untitled (taskTitle (stored_state w))) env w.
    + apply (tracks_untouched w); assumption.
    + destruct Hinv as (Hshape & Hopen & _).
      destruct Hsame as (Hset & _).
      assert (Hnone : currentSessionId (stored_state w) = None).
      { remember (stored_state w) as st eqn:Hst.
        destruct Hshape; simpl in *; try reflexivity; discriminate. }
      rewrite Hnone in Hopen. apply map_eq_nil in Hopen.
      unfold tracks_open_sessions. simpl.
      rewrite Hdb, open_sessions_create, Hopen, Hset, Hcfg. simpl.
      repeat split; try constructor; try discriminate.
      destruct (id =? "")%string eqn:Hid; [ | reflexivity ].
      apply String.eqb_eq in Hid. congruence.
  - (* stop *)
    destruct Hinv as (Hshape & Hopen & Hrun).
    destruct (w_settings w) as [cfg | ] eqn:Hcfg.
    + destruct (currentSessionId (stored_state w)) as [session | ] eqn:Hsid.
      * destruct (isRunning (stored_state w) && truthy_string (Some session)) eqn:Hguard.
        -- split_close cfg session env w.
           ++ apply (tracks_untouched w); try assumption.
              unfold tracks_open_sessions. rewrite Hsid, Hcfg. auto.
           ++ unfold tracks_open_sessions. simpl.
              rewrite Hdb, (close_the_open_session _ _ _ Hopen).
              repeat split; try constructor; discriminate.
        -- exfalso. remember (stored_state w) as st eqn:Hst.
           destruct Hshape; simpl in *; try discriminate.
           destruct Hrun as (_ & Htruthy); [ reflexivity | ].
           injection Hsid as ->. rewrite Htruthy in Hguard. discriminate.
      * unfold tracks_open_sessions. simpl. rewrite Hopen.
        repeat split; try constructor; discriminate.
    + assert (Hnone : currentSessionId (stored_state w) = None).
      { remember (stored_state w) as st eqn:Hst.
        destruct Hshape; simpl in *; try reflexivity.
        destruct Hrun as (Habsurd & _); [ reflexivity | ]. now contradiction Habsurd. }
      rewrite Hnone in Hopen.
      unfold tracks_open_sessions. simpl. rewrite Hopen.
      repeat split; try constructor; discriminate.
Qed.

Lemma run_tracks steps : forall w,
  tracks_open_sessions w -> disciplined w steps ->
  tracks_open_sessions (run steps w).
Proof.
  induction steps as [ | s steps IH]; intros w Hinv Hsteps; simpl.
  - exact Hinv.
  - destruct Hsteps as (Hstart & Hnames & Hrest).
    apply IH; [ apply step_tracks; assumption | exact Hrest ].
Qed.

(** C5 fails on the code: a start request delivered while task T1 is
    running is accepted; [handleStartTimer] neither reads the stored state
    nor closes the open record, and two session records for T1 are open.
    The popup sends that request when play is pressed on the running task
    and its task list, loaded before the start, shows no active session
    for it: [handlePlayTask] raises no modal and starts the task again. *)
Lemma second_start_opens_second_session :
  phase (stored_state (started_at 1000)) = running /\
  started_twice = step (started_at 1000)
                    (Deliver (START_TIMER sample_payload) (env_up 2000 "s2")) /\
  map (fun r => (rs_id r, rs_task r, rs_end r))
      (open_sessions_of "T1" (w_remote started_twice)) =
    [("s1", "T1", None); ("s2", "T1", None)] /\
  currentSessionId (stored_state started_twice) = Some "s2" /\
  (let task := {| task_id := "T1"; task_title := "Write report";
                  task_sessionsRelation := ["s1"]; task_totalTrackedTime := 0;
                  task_lastEditedTime := ""; task_activeSession := None |} in
   handlePlayTask None sample_settings (stored_state (started_at 1000)) task
     (env_up 1900 "s0") (env_up 2000 "s2") (sample_list None) (started_at 1000) =
   (with_ui {| currentView := timer; errorMessage := None |} (sample_list None),
    started_twice)).
Proof. repeat split. Qed.

(** X23. Start from an install whose remote store has no open
    session record, and let the requests be processed one after the other.
    If no start request arrives while the timer is running (and the remote
    store never names a created record by the empty string), then at every
    point each task has at most one open session record; the open records
    are exactly the one named by the stored session id, if any. *)
Theorem one_open_session_when_start_waits cfg db steps :
  open_sessions db = [] ->
  disciplined (installed cfg db) steps ->
  let w := run steps (installed cfg db) in
  (forall task, (List.length (open_sessions_of task (w_remote w)) <= 1)%nat) /\
  map rs_id (open_sessions (w_remote w)) =
    match currentSessionId (stored_state w) with
    | Some session => [session]
    | None => []
    end.
Proof.
  intros Hclosed Hsteps w.
  assert (Hinv : tracks_open_sessions w).
  { apply run_tracks; [ | exact Hsteps ].
    unfold tracks_open_sessions. simpl. rewrite Hclosed.
    repeat split; try constructor; discriminate. }
  destruct Hinv as (_ & Hopen & _). split; [ | exact Hopen ].
  intros task. rewrite open_sessions_of_sublist.
  eapply Nat.le_trans; [ apply filter_length_le | ].
  rewrite <- (length_map rs_id), Hopen.
  destruct (currentSessionId (stored_state w)); simpl; lia.
Qed.

(** ** Quotients of safe integers *)

Lemma round_half_even_cases N D :
  0 < D ->
  (round_half_even N D = N / D /\ 2 * (N mod D) <= D) \/
  (round_half_even N D = N / D + 1 /\ D <= 2 * (N mod D)).
Proof.
  intros HD. unfold round_half_even.
  destruct (Z.ltb_spec (2 * (N mod D)) D); [ left; split; [ reflexivity | lia ] | ].
  destruct (Z.ltb_spec D (2 * (N mod D))); [ right; split; [ reflexivity | lia ] | ].
  destruct (Z.even (N / D)); [ left | right ]; split; try reflexivity; lia.
Qed.

(** The scaled quotient of a safe integer: the exponent is not positive
    and the mantissa has its 53 bits. *)
Lemma double_exponent_safe n d :
  0 < n < 2 ^ 53 -> 0 < d ->
  let e := double_exponent n d in
  e <= 0 /\
  scaled_numerator n e = n * 2 ^ (- e) /\ scaled_denominator d e = d /\
  2 ^ 52 <= (n * 2 ^ (- e)) / d.
Proof.
  intros Hn Hd e.
  assert (Hln : 0 <= Z.log2 n < 53).
  { split; [ apply Z.log2_nonneg | apply Z.log2_lt_pow2; lia ]. }
  assert (Hld : 0 <= Z.log2 d) by apply Z.log2_nonneg.
  destruct (Z.log2_spec n ltac:(lia)) as (Hn_low & _).
  destruct (Z.log2_spec d ltac:(lia)) as (_ & Hd_high).
  assert (Hscaled : forall x, x <= 0 ->
            scaled_numerator n x = n * 2 ^ (- x) /\ scaled_denominator d x = d).
  { intros x Hx. unfold scaled_numerator, scaled_denominator.
    destruct (Z.leb_spec 0 x); [ | auto ].
    assert (x = 0) by lia. subst. simpl. split; lia. }
  subst e. unfold double_exponent.
  set (e0 := Z.log2 n - Z.log2 d - 52).
  assert (He0 : e0 <= 0) by (unfold e0; lia).
  destruct (Z.leb_spec (2 ^ 52) (scaled_numerator n e0 / scaled_denominator d e0)) as [Hbig | _].
  - destruct (Hscaled e0 He0) as (Hnum & Hden). rewrite Hnum, Hden in *. auto.
  - destruct (Hscaled (e0 - 1) ltac:(lia)) as (Hnum & Hden).
    split; [ lia | ]. split; [ exact Hnum | ]. split; [ exact Hden | ].
    apply Z.div_le_lower_bound; [ lia | ].
    replace (- (e0 - 1)) with (53 + Z.log2 d - Z.log2 n) by (unfold e0; lia).
    assert (Hpow : 2 ^ Z.log2 n * 2 ^ (53 + Z.log2 d - Z.log2 n) = 2 ^ 52 * 2 ^ Z.succ (Z.log2 d)).
    { rewrite <- !Z.pow_add_r by lia. f_equal. lia. }
    assert (0 < 2 ^ (53 + Z.log2 d - Z.log2 n)) by (apply Z.pow_pos_nonneg; lia).
    nia.
Qed.

(** A mantissa of 53 bits leaves no room for a divisor of twice the scale. *)
Lemma mantissa_excludes n d P x r :
  0 < n < 2 ^ 53 -> 0 < P -> 0 <= r ->
  n * P = d * x + r -> 2 ^ 52 <= x -> 2 * P <= d -> False.
Proof.
  intros Hn HP Hr Hx Hbits Hd.
  assert (d * 2 ^ 52 <= d * x) by (apply Z.mul_le_mono_nonneg_l; lia).
  assert (2 * P * 2 ^ 52 <= d * 2 ^ 52) by (apply Z.mul_le_mono_nonneg_r; lia).
  assert (n * P < 2 ^ 53 * P) by (apply Z.mul_lt_mono_pos_r; lia).
  change (2 ^ 53) with (2 * 2 ^ 52) in *. lia.
Qed.

Lemma rounded_floor n d P :
  0 < n < 2 ^ 53 -> 0 < d -> 0 < P -> 2 ^ 52 <= (n * P) / d ->
  round_half_even (n * P) d / P = n / d.
Proof.
  intros Hn Hd HP Hbits.
  pose proof (Z.div_mod n d ltac:(lia)) as Hk.
  pose proof (Z.mod_pos_bound n d Hd) as Hkr.
  pose proof (Z.div_mod (n * P) d ltac:(lia)) as Hx.
  pose proof (Z.mod_pos_bound (n * P) d Hd) as Hxr.
  pose proof (round_half_even_cases (n * P) d Hd) as Hround.
  set (m := round_half_even (n * P) d) in *.
  set (k := n / d) in *. set (x := (n * P) / d) in *.
  set (r := (n * P) mod d) in *. set (s := n mod d) in *.
  set (t := k * P).
  assert (HkP : n * P = d * t + s * P) by (unfold t; rewrite Hk at 1; ring).
  assert (HsP : 0 <= s * P <= (d - 1) * P)
    by (split; [ apply Z.mul_nonneg_nonneg | apply Z.mul_le_mono_nonneg_r ]; lia).
  assert (Hdiff : d * (x - t) = s * P - r) by lia.
  assert (Hlow : 0 <= x - t).
  { assert (Hstrict : - 1 < x - t); [ | lia ].
    apply (Z.mul_lt_mono_pos_l d _ _ Hd). lia. }
  assert (Hhigh : x - t < P).
  { apply (Z.mul_lt_mono_pos_l d _ _ Hd). rewrite Hdiff.
    replace (d * P) with ((d - 1) * P + P) by ring. lia. }
  symmetry. apply (Z.div_unique_pos m P k (m - t)); [ | unfold t; ring ].
  destruct Hround as [(-> & _) | (-> & Hup)]; [ lia | ].
  split; [ lia | ].
  destruct (Z.eq_dec (x - t) (P - 1)) as [Hedge | ]; [ exfalso | lia ].
  rewrite Hedge in Hdiff.
  assert (d * (P - 1) = d * P - d) by ring.
  assert (d * P - (d - 1) * P = P) by ring.
  apply (mantissa_excludes n d P x r); try assumption; lia.
Qed.

Lemma rounded_ceiling a d P :
  0 < a < 2 ^ 53 -> 0 < d -> 0 < P -> 2 ^ 52 <= (a * P) / d ->
  (- round_half_even (a * P) d) / P = (- a) / d.
Proof.
  intros Ha Hd HP Hbits.
  pose proof (Z.div_mod (- a) d ltac:(lia)) as Hk.
  pose proof (Z.mod_pos_bound (- a) d Hd) as Hkr.
  pose proof (Z.div_mod (a * P) d ltac:(lia)) as Hx.
  pose proof (Z.mod_pos_bound (a * P) d Hd) as Hxr.
  pose proof (round_half_even_cases (a * P) d Hd) as Hround.
  set (m := round_half_even (a * P) d) in *.
  set (k := (- a) / d) in *. set (x := (a * P) / d) in *.
  set (r := (a * P) mod d) in *. set (s := (- a) mod d) in *.
  set (t := k * P).
  assert (HkP : - (a * P) = d * t + s * P)
    by (unfold t; replace (- (a * P)) with (- a * P) by ring; rewrite Hk at 1; ring).
  assert (HsP : 0 <= s * P <= (d - 1) * P)
    by (split; [ apply Z.mul_nonneg_nonneg | apply Z.mul_le_mono_nonneg_r ]; lia).
  assert (Hsum : d * (x + t) = - r - s * P) by lia.
  assert (Hhigh : x + t <= 0).
  { assert (Hstrict : x + t < 1); [ | lia ].
    apply (Z.mul_lt_mono_pos_l d _ _ Hd). lia. }
  assert (Hlow : - P <= x + t).
  { assert (Hstrict : - (P + 1) < x + t); [ | lia ].
    apply (Z.mul_lt_mono_pos_l d _ _ Hd). rewrite Hsum.
    replace (d * - (P + 1)) with (- ((d - 1) * P) - P - d) by ring. lia. }
  symmetry. apply (Z.div_unique_pos (- m) P k (- m - t)); [ | unfold t; ring ].
  destruct Hround as [(-> & Hdown) | (-> & Hup)].
  - split; [ lia | ].
    destruct (Z.eq_dec (x + t) (- P)) as [Hedge | ]; [ exfalso | lia ].
    rewrite Hedge in Hsum.
    assert (d * - P = - ((d - 1) * P) - P) by ring.
    apply (mantissa_excludes a d P x r); try assumption; lia.
  - split; [ | lia ].
    assert (Hneg : x + t < 0); [ | lia ].
    apply (Z.mul_lt_mono_pos_l d _ _ Hd). rewrite Hsum. lia.
Qed.

Lemma floor_quotient_exact n d :
  - MAX_SAFE_INTEGER <= n <= MAX_SAFE_INTEGER -> 0 < d ->
  floor_quotient n d = n / d.
Proof.
  unfold MAX_SAFE_INTEGER. intros Hn Hd.
  destruct n as [ | p | p]; unfold floor_quotient.
  - reflexivity.
  - destruct (double_exponent_safe (Z.pos p) d ltac:(lia) Hd) as (He & Hnum & Hden & Hbits).
    unfold double_mantissa. rewrite Hnum, Hden.
    set (e := double_exponent (Z.pos p) d) in *.
    assert (HP : 0 < 2 ^ (- e)) by (apply Z.pow_pos_nonneg; lia).
    rewrite <- (rounded_floor (Z.pos p) d (2 ^ (- e))) by (assumption || lia).
    destruct (Z.leb_spec 0 e); [ | reflexivity ].
    assert (e = 0) by lia. subst e. replace (- 0) with 0 by lia.
    rewrite H0. simpl (2 ^ 0). now rewrite Z.mul_1_r, Z.div_1_r.
  - change (- Z.neg p) with (Z.pos p).
    destruct (double_exponent_safe (Z.pos p) d ltac:(lia) Hd) as (He & Hnum & Hden & Hbits).
    unfold double_mantissa. rewrite Hnum, Hden.
    set (e := double_exponent (Z.pos p) d) in *.
    assert (HP : 0 < 2 ^ (- e)) by (apply Z.pow_pos_nonneg; lia).
    change (Z.neg p) with (- Z.pos p).
    rewrite <- (rounded_ceiling (Z.pos p) d (2 ^ (- e))) by (assumption || lia).
    destruct (Z.leb_spec 0 e); [ | reflexivity ].
    assert (e = 0) by lia. subst e. replace (- 0) with 0 by lia.
    rewrite H0. simpl (2 ^ 0). now rewrite Z.mul_1_r, !Z.div_1_r.
Qed.

Lemma quotient_safe n d :
  - MAX_SAFE_INTEGER <= n <= MAX_SAFE_INTEGER -> 0 < d ->
  - MAX_SAFE_INTEGER <= n / d <= MAX_SAFE_INTEGER.
Proof.
  assert (Hmax : 0 < MAX_SAFE_INTEGER) by reflexivity.
  intros Hn Hd. split.
  - apply Z.div_le_lower_bound; nia.
  - apply Z.div_le_upper_bound; nia.
Qed.

(** ** Time formatting *)

Lemma to_double_safe v x : to_double v = x -> x < 2 ^ 53 -> v = x.
Proof.
  unfold to_double. destruct (Z.ltb_spec v (2 ^ 53)) as [ | Hbig]; [ tauto | ].
  intros <- Hsmall. exfalso.
  assert (Hpos : 0 < v) by lia.
  destruct (Z.log2_spec v Hpos) as (Hlow & _).
  assert (Hlog : 53 <= Z.log2 v) by (apply Z.log2_le_pow2; lia).
  set (e := Z.log2 v - 52) in *.
  assert (HP : 0 < 2 ^ e) by (apply Z.pow_pos_nonneg; lia).
  assert (Hsplit : 2 ^ Z.log2 v = 2 ^ 52 * 2 ^ e)
    by (rewrite <- Z.pow_add_r by lia; f_equal; lia).
  assert (Hq : 2 ^ 52 <= v / 2 ^ e) by (apply Z.div_le_lower_bound; lia).
  assert (Hround : v / 2 ^ e <= round_half_even v (2 ^ e))
    by (destruct (round_half_even_cases v (2 ^ e) HP) as [(-> & _) | (-> & _)]; lia).
  assert (He : 2 <= 2 ^ e) by (change 2 with (2 ^ 1) at 1; apply Z.pow_le_mono_r; lia).
  assert (2 ^ 52 * 2 <= round_half_even v (2 ^ e) * 2 ^ e)
    by (apply Z.mul_le_mono_nonneg; lia).
  change (2 ^ 53) with (2 ^ 52 * 2) in Hsmall. lia.
Qed.

Lemma shortest_decimal_safe x : x <= MAX_SAFE_INTEGER -> shortest_decimal x = x.
Proof.
  unfold MAX_SAFE_INTEGER. intros Hx. unfold shortest_decimal.
  destruct (find _ _) as [v | ] eqn:Hfind; [ | reflexivity ].
  apply find_some in Hfind. destruct Hfind as (_ & Hv).
  apply Z.eqb_eq in Hv. apply (to_double_safe v x Hv). lia.
Qed.

(** The numeral of a safe integer that is not negative is the decimal of
    the integer itself. *)
Lemma toString_safe n : 0 <= n <= MAX_SAFE_INTEGER -> toString n = decimal n.
Proof.
  intros Hn. unfold toString.
  rewrite Z.abs_eq, shortest_decimal_safe by lia.
  destruct (Z.ltb_spec n 0); [ lia | ].
  destruct (Z.ltb_spec n (10 ^ 21)) as [ | Hbig]; [ reflexivity | ].
  unfold MAX_SAFE_INTEGER in Hn.
  assert (2 ^ 53 < 10 ^ 21) by reflexivity. lia.
Qed.

Lemma toString_numeral n :
  0 <= n <= MAX_SAFE_INTEGER ->
  exists d, NilZero.uint_of_string (toString n) = Some d /\ Z.of_uint d = n.
Proof.
  intros Hn. rewrite (toString_safe n Hn). unfold decimal.
  destruct n as [ | p | p]; [ | | lia ].
  - exists (D0 Nil). split; reflexivity.
  - exists (Pos.to_uint p). simpl. split.
    + apply NilZero.usu, DecimalPos.Unsigned.to_uint_nonnil.
    + unfold Z.of_uint. now rewrite DecimalPos.Unsigned.of_to.
Qed.

Lemma padZero_numeral n :
  0 <= n <= MAX_SAFE_INTEGER ->
  numeral_value (padZero n) = Some n /\ (2 <= String.length (padZero n))%nat.
Proof.
  intros Hn. destruct (toString_numeral n Hn) as (d & Hd & Hvalue).
  unfold padZero, padStart, numeral_value.
  destruct (toString n) as [ | c [ | c' rest]].
  - discriminate.
  - split; [ | simpl; lia ].
    change (NilZero.uint_of_string (String c "")) with (uint_of_char c (Some Nil)) in Hd.
    change (NilZero.uint_of_string (repeat_char "0" (2 - String.length (String c "")) ++
                                    String c ""))
      with (uint_of_char "0" (uint_of_char c (Some Nil))).
    rewrite Hd. cbn [uint_of_char option_map]. now rewrite <- Hvalue.
  - split; [ | simpl; lia ].
    change (repeat_char "0" (2 - String.length (String c (String c' rest))) ++
            String c (String c' rest))
      with (String c (String c' rest)).
    rewrite Hd. simpl. now rewrite Hvalue.
Qed.

Lemma padZero_two_digits n :
  0 <= n < 60 -> String.length (padZero n) = 2%nat.
Proof.
  intros Hn. unfold padZero.
  rewrite toString_safe by (unfold MAX_SAFE_INTEGER; lia).
  rewrite <- (Z2Nat.id n) by lia.
  assert (Hk : (Z.to_nat n < 60)%nat) by lia.
  revert Hk. generalize (Z.to_nat n). intros k Hk.
  do 60 (destruct k as [ | k]; [ reflexivity | ]). lia.
Qed.

Lemma digits_colon_free s : forall d,
  NilEmpty.uint_of_string s = Some d -> colon_free s = true.
Proof.
  induction s as [ | c rest IH]; intros d Hd; [ reflexivity | ].
  simpl in Hd. destruct (NilEmpty.uint_of_string rest) as [d' | ] eqn:Hrest.
  - simpl. rewrite (IH d' eq_refl), andb_true_r.
    destruct (Ascii.eqb_spec c ":") as [-> | ]; [ discriminate | reflexivity ].
  - destruct c as [[] [] [] [] [] [] [] []]; discriminate.
Qed.

Lemma padZero_colon_free n :
  0 <= n <= MAX_SAFE_INTEGER -> colon_free (padZero n) = true.
Proof.
  intros Hn. destruct (padZero_numeral n Hn) as (Hvalue & _).
  unfold numeral_value, NilZero.uint_of_string in Hvalue.
  destruct (padZero n) as [ | c rest] eqn:Hpad; [ discriminate | ].
  destruct (NilEmpty.uint_of_string (String c rest)) as [d | ] eqn:Hd; [ | discriminate ].
  exact (digits_colon_free _ _ Hd).
Qed.

Lemma split_at_colon s1 : forall s2 r1 r2,
  colon_free s1 = true -> colon_free s2 = true ->
  s1 ++ ":" ++ r1 = s2 ++ ":" ++ r2 -> s1 = s2 /\ r1 = r2.
Proof.
  induction s1 as [ | c s1 IH]; intros [ | c' s2] r1 r2 H1 H2 Heq; simpl in *.
  - injection Heq as ->. auto.
  - injection Heq as <- _. discriminate.
  - injection Heq as -> _. discriminate.
  - injection Heq as -> Heq.
    apply andb_true_iff in H1, H2.
    destruct (IH s2 r1 r2) as (-> & ->); tauto.
Qed.

Lemma seconds_split total :
  0 <= total ->
  total / 3600 * 3600 + total mod 3600 / 60 * 60 + total mod 60 = total.
Proof.
  intros Htotal.
  pose proof (Z.div_mod total 3600 ltac:(lia)) as Hsplit.
  pose proof (Z.div_mod (total mod 3600) 60 ltac:(lia)) as Hsplit'.
  assert (Hsame : (total mod 3600) mod 60 = total mod 60)
    by (apply Z.mod_mod_divide; exists 60; reflexivity).
  lia.
Qed.

Lemma clock_parts_safe total :
  0 <= total <= MAX_SAFE_INTEGER ->
  0 <= total / 3600 <= MAX_SAFE_INTEGER /\
  0 <= total mod 3600 / 60 <= MAX_SAFE_INTEGER /\
  0 <= total mod 60 <= MAX_SAFE_INTEGER.
Proof.
  intros Htotal.
  assert (Hmax : 3600 <= MAX_SAFE_INTEGER) by discriminate.
  pose proof (quotient_safe total 3600 ltac:(lia) ltac:(lia)).
  pose proof (Z.mod_pos_bound total 3600 ltac:(lia)).
  pose proof (Z.mod_pos_bound total 60 ltac:(lia)).
  pose proof (quotient_safe (total mod 3600) 60 ltac:(lia) ltac:(lia)).
  pose proof (Z.div_pos total 3600 ltac:(lia) ltac:(lia)).
  pose proof (Z.div_pos (total mod 3600) 60 ltac:(lia) ltac:(lia)).
  lia.
Qed.

Lemma numeral_colon_free s v : numeral_value s = Some v -> colon_free s = true.
Proof.
  unfold numeral_value, NilZero.uint_of_string.
  destruct s as [ | c rest]; [ discriminate | ].
  destruct (NilEmpty.uint_of_string (String c rest)) as [d | ] eqn:Hd; [ | discriminate ].
  intros _. exact (digits_colon_free _ _ Hd).
Qed.

(** On a safe integer that is not negative the quotients of [formatTime]
    are the exact ones. *)
Lemma formatTime_safe ms :
  0 <= ms <= MAX_SAFE_INTEGER ->
  formatTime ms =
    padZero (ms / 1000 / 3600) ++ ":" ++ padZero ((ms / 1000) mod 3600 / 60) ++ ":" ++
    padZero ((ms / 1000) mod 60).
Proof.
  intros Hms. unfold formatTime.
  assert (Hmax : 0 < MAX_SAFE_INTEGER) by reflexivity.
  assert (Htotal : 0 <= ms / 1000 <= MAX_SAFE_INTEGER).
  { split; [ apply Z.div_pos; lia | ].
    transitivity ms; [ apply Z.div_le_upper_bound; lia | lia ]. }
  rewrite (floor_quotient_exact ms 1000) by lia.
  rewrite !Z.rem_mod_nonneg by lia.
  pose proof (Z.mod_pos_bound (ms / 1000) 3600 ltac:(lia)) as Hrest.
  rewrite (floor_quotient_exact (ms / 1000) 3600) by lia.
  rewrite (floor_quotient_exact ((ms / 1000) mod 3600) 60)
    by (unfold MAX_SAFE_INTEGER in *; simpl in *; lia).
  reflexivity.
Qed.

(** C10, as stated, fails beyond the safe integers: at 2^63 milliseconds
    the quotient by 1000 is rounded up to the next double before it is
    floored, and [formatTime] shows 56 seconds where the whole seconds of
    the count end in 55; no reading of its three numerals adds up to the
    whole seconds of the count. *)
Lemma formatTime_rounds_beyond_safe_integers :
  0 <= 2 ^ 63 /\
  formatTime (2 ^ 63) = "2562047788015:12:56" /\
  2562047788015 * 3600 + 12 * 60 + 56 <> 2 ^ 63 / 1000 /\
  ~ exists (hh mm ss : string) (h m s : Z),
      formatTime (2 ^ 63) = hh ++ ":" ++ mm ++ ":" ++ ss /\
      numeral_value hh = Some h /\ numeral_value mm = Some m /\
      numeral_value ss = Some s /\
      h * 3600 + m * 60 + s = 2 ^ 63 / 1000.
Proof.
  assert (Hshown : formatTime (2 ^ 63) = "2562047788015:12:56") by (vm_compute; reflexivity).
  split; [ discriminate | ]. split; [ exact Hshown | ]. split; [ discriminate | ].
  intros (hh & mm & ss & h & m & s & Heq & Hh & Hm & Hs & Hsum).
  rewrite Hshown in Heq.
  change "2562047788015:12:56" with ("2562047788015" ++ ":" ++ "12" ++ ":" ++ "56") in Heq.
  apply split_at_colon in Heq; [ | reflexivity | exact (numeral_colon_free _ _ Hh) ].
  destruct Heq as (<- & Heq).
  apply split_at_colon in Heq; [ | reflexivity | exact (numeral_colon_free _ _ Hm) ].
  destruct Heq as (<- & <-).
  vm_compute in Hh, Hm, Hs.
  injection Hh as <-. injection Hm as <-. injection Hs as <-.
  vm_compute in Hsum. discriminate.
Qed.

(** C10, amended. For a non-negative millisecond count that is a safe
    integer (at most 2^53 - 1), [formatTime] returns three numerals
    separated by colons: each is made of decimal digits only, the hours
    numeral has at least two digits and the minutes and seconds numerals
    exactly two; minutes and seconds lie between 0 and 59, and hours,
    minutes and seconds add up to the whole seconds of the count. *)
Theorem formatTime_hours_minutes_seconds ms :
  0 <= ms <= MAX_SAFE_INTEGER ->
  exists (hh mm ss : string) (h m s : Z),
    formatTime ms = hh ++ ":" ++ mm ++ ":" ++ ss /\
    numeral_value hh = Some h /\ numeral_value mm = Some m /\ numeral_value ss = Some s /\
    (2 <= String.length hh)%nat /\ String.length mm = 2%nat /\ String.length ss = 2%nat /\
    0 <= h /\ 0 <= m <= 59 /\ 0 <= s <= 59 /\
    h * 3600 + m * 60 + s = ms / 1000.
Proof.
  intros Hms. rewrite (formatTime_safe ms Hms).
  set (total := ms / 1000).
  assert (Htotal : 0 <= total) by (apply Z.div_pos; lia).
  set (h := total / 3600). set (m := total mod 3600 / 60). set (s := total mod 60).
  assert (Hrest : 0 <= total mod 3600 < 3600) by (apply Z.mod_pos_bound; lia).
  assert (Hh : 0 <= h) by (apply Z.div_pos; lia).
  assert (Hm : 0 <= m <= 59).
  { split; [ apply Z.div_pos; lia | ].
    apply Z.lt_succ_r, Z.div_lt_upper_bound; lia. }
  assert (Hs : 0 <= s < 60) by (apply Z.mod_pos_bound; lia).
  assert (Hsum : h * 3600 + m * 60 + s = total).
  { pose proof (Z.div_mod total 3600 ltac:(lia)) as Hsplit.
    pose proof (Z.div_mod (total mod 3600) 60 ltac:(lia)) as Hsplit'.
    assert (Hsame : (total mod 3600) mod 60 = s).
    { unfold s. apply Z.mod_mod_divide. exists 60. reflexivity. }
    subst h m. lia. }
  assert (Hmax : 60 <= MAX_SAFE_INTEGER) by discriminate.
  assert (Hhmax : h <= MAX_SAFE_INTEGER).
  { pose proof (quotient_safe ms 1000 ltac:(lia) ltac:(lia)) as Hbound.
    fold total in Hbound. lia. }
  exists (padZero h), (padZero m), (padZero s), h, m, s.
  destruct (padZero_numeral h ltac:(lia)) as (Hvh & Hlh).
  destruct (padZero_numeral m ltac:(lia)) as (Hvm & _).
  destruct (padZero_numeral s ltac:(lia)) as (Hvs & _).
  repeat split; try assumption; try lia.
  - apply padZero_two_digits. lia.
  - apply padZero_two_digits. lia.
Qed.

(** ** The theorems at sample inputs *)

(** The scenario of the specification, with the clock started at 1000:
    start with a prior total of 0, pause 5000 ms later, resume, stop. *)
Example scenario_pause_total :
  previousTotal (stored_state paused_world) = 5000 /\
  phase (stored_state paused_world) = paused /\
  map (fun r => (rs_id r, rs_start r, rs_end r)) (w_remote paused_world) =
    [("s1", 1000, Some 6000)].
Proof. repeat split. Qed.

Example scenario_stop_closes_sessions :
  let w := run [Deliver RESUME_TIMER (env_up 7000 "s2"); Deliver STOP_TIMER (env_up 10000 "")]
               paused_world in
  stored_state w = DEFAULT_TIMER_STATE /\
  map (fun r => (rs_id r, rs_start r, rs_end r)) (w_remote w) =
    [("s1", 1000, Some 6000); ("s2", 7000, Some 10000)].
Proof. repeat split. Qed.

Example formatTime_samples :
  formatTime 0 = "00:00:00" /\
  formatTime 3661000 = "01:01:01" /\
  formatTime 359999999 = "99:59:59" /\
  formatTime 360000000 = "100:00:00".
Proof. repeat split. Qed.

(** Beyond the safe integers the quotients are rounded and the numerals
    are the shortest digits of the doubles. *)
Example formatTime_beyond_safe_integers :
  formatTime (2 ^ 63) = "2562047788015:12:56" /\
  formatTime (2 ^ 92) = "1.3754889325393113e+21:41:52" /\
  toString (2 ^ 64) = "18446744073709552000".
Proof. repeat split; vm_compute; reflexivity. Qed.

(** Pause of the running task T1 while the remote store is down. *)
Lemma remote_failure_keeps_stored_state_witness :
  remote_call PAUSE_TIMER (env_down 6000) (started_at 1000) =
    Some (endWorkSession sample_settings "s1" (env_down 6000)) /\
  fst (endWorkSession sample_settings "s1" (env_down 6000) (started_at 1000)) =
    Err "Notion API error: 500" /\
  exists w',
    dispatch PAUSE_TIMER (env_down 6000) (started_at 1000) =
      (Err "Notion API error: 500", w') /\
    handleMessage PAUSE_TIMER (env_down 6000) (started_at 1000) =
      (ErrorResponse "Notion API error: 500", w') /\
    w_timer w' = w_timer (started_at 1000) /\
    writes w' = writes (started_at 1000).
Proof.
  split; [ reflexivity | ]. split; [ reflexivity | ].
  apply (remote_failure_keeps_stored_state PAUSE_TIMER (env_down 6000) (started_at 1000)
           (endWorkSession sample_settings "s1" (env_down 6000)) "Notion API error: 500");
    reflexivity.
Defined.

(** Stop at install, before any settings are saved. *)
Lemma transitions_without_settings_witness :
  w_settings (installed None []) = None /\
  let (r, w') := dispatch STOP_TIMER (env_up 0 "s1") (installed None []) in
  requests w' = requests (installed None []) /\
  w_remote w' = w_remote (installed None []) /\
  r = Ok (StateResponse DEFAULT_TIMER_STATE) /\
  w_timer w' = Some DEFAULT_TIMER_STATE /\
  writes w' = DEFAULT_TIMER_STATE :: writes (installed None []).
Proof.
  split; [ reflexivity | ].
  apply (proj1 (transitions_without_settings STOP_TIMER (env_up 0 "s1") (installed None []))).
  reflexivity.
Defined.

(** Pause of the running task T1, started at 1000, at 6000. *)
Lemma pause_accumulates_interval_witness :
  w_settings (started_at 1000) = Some sample_settings /\
  isRunning (stored_state (started_at 1000)) = true /\
  currentSessionId (stored_state (started_at 1000)) = Some "s1" /\ "s1" <> "" /\
  sessionStartTime (stored_state (started_at 1000)) = Some 1000 /\ 1000 <> 0 /\
  patchReply (env_up 6000 "") = Ok tt /\
  exists w',
    handlePauseTimer (env_up 6000 "") (started_at 1000) =
      (Ok (paused_from (stored_state (started_at 1000)) 1000 6000), w') /\
    stored_state w' = paused_from (stored_state (started_at 1000)) 1000 6000 /\
    phase (stored_state w') = paused /\
    absent (currentSessionId (stored_state w')) /\
    absent (sessionStartTime (stored_state w')) /\
    previousTotal (stored_state w') =
      previousTotal (stored_state (started_at 1000)) + (6000 - 1000).
Proof.
  do 3 (split; [ reflexivity | ]). split; [ discriminate | ].
  split; [ reflexivity | ]. split; [ discriminate | ]. split; [ reflexivity | ].
  apply (proj1 (pause_accumulates_interval (env_up 6000 "") (started_at 1000))
           sample_settings "s1" 1000);
    try reflexivity; discriminate.
Defined.

(** Start, pause, resume and stop of task T1, each start arriving while
    the timer is not running. *)
Lemma one_open_session_when_start_waits_witness :
  let steps := [SaveSettings sample_settings;
                Deliver (START_TIMER sample_payload) (env_up 1000 "s1");
                Deliver PAUSE_TIMER (env_up 6000 "s2");
                Deliver RESUME_TIMER (env_up 7000 "s3");
                Deliver GET_STATE (env_down 8000);
                Deliver STOP_TIMER (env_up 10000 "s4")] in
  open_sessions [] = [] /\
  disciplined (installed None []) steps /\
  (forall task,
     (List.length (open_sessions_of task (w_remote (run steps (installed None [])))) <= 1)%nat) /\
  map rs_id (open_sessions (w_remote (run steps (installed None [])))) =
    match currentSessionId (stored_state (run steps (installed None []))) with
    | Some session => [session]
    | None => []
    end.
Proof.
  intros steps.
  assert (Hsteps : disciplined (installed None []) steps)
    by (simpl; repeat split; discriminate).
  split; [ reflexivity | ]. split; [ exact Hsteps | ].
  apply (one_open_session_when_start_waits None [] steps); [ reflexivity | exact Hsteps ].
Defined.

(** Stop at install; and stop of the running task T1 followed by a second
    stop while the remote store is down. *)
Lemma stop_is_idempotent_witness :
  (stored_state (installed None []) = DEFAULT_TIMER_STATE /\
   exists w',
     handleStopTimer (env_up 0 "") (installed None []) = (Ok DEFAULT_TIMER_STATE, w') /\
     stored_state w' = stored_state (installed None []) /\
     requests w' = requests (installed None []) /\
     w_remote w' = w_remote (installed None [])) /\
  (let w1 := snd (handleStopTimer (env_up 9000 "") (started_at 1000)) in
   handleStopTimer (env_up 9000 "") (started_at 1000) = (Ok DEFAULT_TIMER_STATE, w1) /\
   exists w2,
     handleStopTimer (env_down 9500) w1 = (Ok DEFAULT_TIMER_STATE, w2) /\
     stored_state w2 = stored_state w1 /\
     requests w2 = requests w1 /\
     w_remote w2 = w_remote w1).
Proof.
  split.
  - split; [ reflexivity | ].
    apply (proj1 (stop_is_idempotent (env_up 0 "") (installed None []))). reflexivity.
  - intros w1. split; [ reflexivity | ].
    apply (proj1 (proj2 (stop_is_idempotent (env_up 9000 "") (started_at 1000)))
             DEFAULT_TIMER_STATE w1 (env_down 9500)).
    reflexivity.
Defined.

(** Pause at install. *)
Lemma pause_when_not_running_witness :
  isRunning (stored_state (installed None [])) = false /\
  handlePauseTimer (env_up 0 "") (installed None []) =
    (Ok (stored_state (installed None [])), installed None []) /\
  handleMessage PAUSE_TIMER (env_up 0 "") (installed None []) =
    (StateResponse (stored_state (installed None [])), installed None []).
Proof.
  split; [ reflexivity | ].
  apply (pause_when_not_running (env_up 0 "") (installed None [])). reflexivity.
Defined.

(** One hour, one minute, one second and a fraction. *)
Lemma formatTime_hours_minutes_seconds_witness :
  0 <= 3661500 <= MAX_SAFE_INTEGER /\
  exists (hh mm ss : string) (h m s : Z),
    formatTime 3661500 = hh ++ ":" ++ mm ++ ":" ++ ss /\
    numeral_value hh = Some h /\ numeral_value mm = Some m /\ numeral_value ss = Some s /\
    (2 <= String.length hh)%nat /\ String.length mm = 2%nat /\ String.length ss = 2%nat /\
    0 <= h /\ 0 <= m <= 59 /\ 0 <= s <= 59 /\
    h * 3600 + m * 60 + s = 3661500 / 1000.
Proof.
  split; [ unfold MAX_SAFE_INTEGER; lia | ].
  apply (formatTime_hours_minutes_seconds 3661500). unfold MAX_SAFE_INTEGER. lia.
Defined.

(** * Further properties of the worker *)

Lemma untouched_refl w : untouched w w.
Proof. repeat split. Qed.

(** Whatever the message, the listener's answer and the world it leaves
    are of one of three kinds: an error with storage, badge, alarm and
    remote store as before; the stored state, with the world as before;
    or a freshly written state. *)
Lemma handleMessage_kinds message env w :
  let (r, w') := handleMessage message env w in
  (exists e, r = ErrorResponse e /\ untouched w w' /\ w_remote w' = w_remote w) \/
  ((r = StateResponse (stored_state w) \/ r = SnapshotResponse (stored_state w)) /\ w' = w) \/
  (exists st, r = StateResponse st /\ w_timer w' = Some st /\
              writes w' = st :: writes w /\ w_settings w' = w_settings w /\
              w_badge w' = badge_of st /\
              (w_settings w <> None -> w_alarm w' = isRunning st) /\
              (w_settings w = None -> st = DEFAULT_TIMER_STATE /\ w_alarm w' = w_alarm w)).
Proof.
  destruct message; unfold_handlers.
  - (* start *)
    destruct (w_settings w) as [cfg | ] eqn:Hcfg.
    + split_create cfg (payloadTaskId payload) (payloadTaskTitle payload) env w.
      * left. eauto.
      * right. right. destruct Hsame as (Hs & Ht & Hb & Ha & Hw).
        eexists. split; [ reflexivity | ]. simpl. unfold writes in *. simpl.
        rewrite Hw, Hs, Hcfg. repeat split; auto; discriminate.
    + left. exists "Settings not configured". auto using untouched_refl.
  - (* pause *)
    destruct (w_settings w) as [cfg | ] eqn:Hcfg; [ | right; left; auto ].
    destruct (currentSessionId (stored_state w)) as [session | ] eqn:Hsid;
      [ | right; left; auto ].
    destruct (isRunning (stored_state w) && truthy_string (Some session)) eqn:Hguard;
      [ | right; left; auto ].
    split_close cfg session env w.
    + left. eauto.
    + right. right. destruct Hsame as (Hs & Ht & Hb & Ha & Hw).
      eexists. split; [ reflexivity | ]. simpl. unfold writes in *. simpl.
      rewrite Hw, Hs, Hcfg. repeat split; auto; discriminate.
  - (* resume *)
    destruct (w_settings w) as [cfg | ] eqn:Hcfg; [ | right; left; auto ].
    destruct (taskId (stored_state w)) as [task | ] eqn:Htask; [ | right; left; auto ].
    destruct (isPaused (stored_state w) && truthy_string (Some task)) eqn:Hguard;
      [ | right; left; auto ].
    split_create cfg task (title_or_untitled (taskTitle (stored_state w))) env w.
    + left. eauto.
    + right. right. destruct Hsame as (Hs & Ht & Hb & Ha & Hw).
      eexists. split; [ reflexivity | ]. simpl. unfold writes in *. simpl.
      rewrite Hw, Hs, Hcfg. repeat split; auto; discriminate.
  - (* stop *)
    destruct (w_settings w) as [cfg | ] eqn:Hcfg.
    + destruct (currentSessionId (stored_state w)) as [session | ] eqn:Hsid.
      * destruct (isRunning (stored_state w) && truthy_string (Some session)) eqn:Hguard.
        -- split_close cfg session env w.
           ++ left. eauto.
           ++ right. right. destruct Hsame as (Hs & Ht & Hb & Ha & Hw).
              eexists. split; [ reflexivity | ]. simpl. unfold writes in *. simpl.
              rewrite Hw, Hs, Hcfg. repeat split; auto; discriminate.
        -- right. right. eexists. split; [ reflexivity | ]. simpl.
           rewrite Hcfg. repeat split; auto; discriminate.
      * right. right. eexists. split; [ reflexivity | ]. simpl.
        rewrite Hcfg. repeat split; auto; discriminate.
    + right. right. eexists. split; [ reflexivity | ]. simpl.
      rewrite Hcfg. repeat split; auto. intros H. now contradiction H.
  - right. left. auto.
  - left. exists "Unknown message type". auto using untouched_refl.
  - left. exists "Unknown message type". auto using untouched_refl.
Qed.

(** X1. Whenever the listener answers with an error descriptor, whatever
    the message and the cause, the stored settings and timer state, the
    badge, the alarm and the remote store are as before the message, and
    nothing was written. *)
Theorem error_response_changes_nothing message env w e w' :
  handleMessage message env w = (ErrorResponse e, w') ->
  untouched w w' /\ w_remote w' = w_remote w.
Proof.
  intros Hrun. pose proof (handleMessage_kinds message env w) as Hkinds.
  rewrite Hrun in Hkinds.
  destruct Hkinds as [(e0 & _ & Hsame & Hdb) | [([Hr | Hr] & _) | (st & Hr & _)]];
    try discriminate. auto.
Qed.

(** X2. The timer state the listener answers with, be it to a transition
    or to a get-state request, is the state that is stored once the
    message is handled. *)
Theorem answered_state_is_stored message env w st w' :
  handleMessage message env w = (StateResponse st, w') \/
  handleMessage message env w = (SnapshotResponse st, w') ->
  stored_state w' = st.
Proof.
  intros Hrun. pose proof (handleMessage_kinds message env w) as Hkinds.
  destruct Hrun as [Hrun | Hrun]; rewrite Hrun in Hkinds;
    destruct Hkinds as [(e0 & Hr & _) | [([Hr | Hr] & ->) | (st' & Hr & Ht & _)]];
    try discriminate; try (now injection Hr as ->).
  unfold stored_state. rewrite Ht. now injection Hr as ->.
Qed.

(** X3. Handling a message never changes the stored settings and writes
    the timer state at most once; after a write the stored state is the
    one written. *)
Theorem one_write_per_message message env w :
  let w' := snd (handleMessage message env w) in
  w_settings w' = w_settings w /\
  (writes w' = writes w /\ w_timer w' = w_timer w \/
   exists st, writes w' = st :: writes w /\ w_timer w' = Some st).
Proof.
  pose proof (handleMessage_kinds message env w) as Hkinds.
  destruct (handleMessage message env w) as [r w']. cbn [snd].
  destruct Hkinds as [(e0 & _ & Hsame & _) | [(_ & ->) | (st & _ & Ht & Hw & Hs & _)]].
  - destruct Hsame as (Hs & Ht & _ & _ & Hw). auto.
  - auto.
  - split; [ exact Hs | ]. right. eauto.
Qed.

(** ** Badge and alarm *)

Lemma shape_badge st : shape st -> badge_of st = if isRunning st then BadgeRunning
                                                  else if isPaused st then BadgePaused
                                                  else BadgeEmpty.
Proof. destruct 1; reflexivity. Qed.

Lemma step_indicators exact w s :
  indicators_agree exact w -> indicators_agree exact (step w s).
Proof.
  intros (Hshape & Hbadge & Halarm & Hcfg).
  pose proof (step_shape w s Hshape) as Hshape'.
  destruct s as [message env | cfg].
  2:{ repeat split; try assumption. simpl. discriminate. }
  unfold step in *.
  pose proof (handleMessage_kinds message env w) as Hkinds.
  destruct (handleMessage message env w) as [r w']. cbn [snd] in *.
  destruct Hkinds as [(e0 & _ & Hsame & _) | [(_ & ->) | (st & _ & Ht & _ & Hs & Hb & Ha & Hnone)]].
  - unfold indicators_agree. rewrite (untouched_stored_state _ _ Hsame) in *.
    destruct Hsame as (-> & _ & -> & -> & _). repeat split; assumption.
  - repeat split; assumption.
  - assert (Hst : stored_state w' = st) by (unfold stored_state; now rewrite Ht).
    unfold indicators_agree.
    rewrite Hst in *. split; [ exact Hshape' | ]. split; [ exact Hb | ].
    destruct (w_settings w) as [cfg | ] eqn:Hw.
    + rewrite Hs. split; [ | intros _; discriminate ].
      rewrite (Ha ltac:(discriminate)). now destruct exact.
    + destruct (Hnone eq_refl) as (-> & Hkeep). rewrite Hkeep.
      split; [ | discriminate ].
      assert (Hoff : w_alarm w = false).
      { destruct (isRunning (stored_state w)) eqn:Hrun;
          [ now contradiction (Hcfg eq_refl) | ].
        destruct exact; [ exact Halarm | ].
        destruct (w_alarm w); [ now specialize (Halarm eq_refl) | reflexivity ]. }
      rewrite Hoff. now destruct exact.
Qed.

Lemma updateBadge_draws st w :
  shape st -> updateBadge st w = (Ok tt, with_badge (badge_of st) w).
Proof. destruct 1; reflexivity. Qed.

(** What the browser drops at a restart leaves an alarm only where one
    was; the alarm stays exactly as it was when the alarms are kept. *)
Lemma restarted_alarm exact kept w :
  (exact = true -> alarms_kept kept = true) ->
  (if exact then w_alarm w = isRunning (stored_state w)
   else w_alarm w = true -> isRunning (stored_state w) = true) ->
  if exact then w_alarm w && alarms_kept kept = isRunning (stored_state w)
  else w_alarm w && alarms_kept kept = true -> isRunning (stored_state w) = true.
Proof.
  intros Hkept Halarm. destruct exact.
  - rewrite (Hkept eq_refl), Bool.andb_true_r. exact Halarm.
  - intros Hon. apply Bool.andb_true_iff in Hon. now apply Halarm.
Qed.

Lemma react_indicators exact w ev :
  (exact = true -> alarm_survives ev) ->
  indicators_agree exact w -> indicators_agree exact (react w ev).
Proof.
  intros Hsurvives Hinv. destruct ev as [s | name | kept | kept]; simpl.
  - apply step_indicators, Hinv.
  - destruct Hinv as (Hshape & Hbadge & Halarm & Hcfg).
    unfold onAlarm, bind, getTimerState, ret.
    destruct (name =? TIMER_ALARM_NAME)%string; [ | simpl; repeat split; assumption ].
    destruct (isRunning (stored_state w)) eqn:Hrun.
    + rewrite (updateBadge_draws _ _ Hshape).
      unfold indicators_agree, with_badge, stored_state in *. cbn.
      rewrite Hrun. repeat split; assumption.
    + unfold indicators_agree. cbn. rewrite Hrun. repeat split; assumption.
  - destruct Hinv as (Hshape & Hbadge & Halarm & Hcfg).
    unfold onStartup, bind, getTimerState, modify, ret.
    change (stored_state (restarted kept w)) with (stored_state w).
    rewrite (updateBadge_draws _ _ Hshape).
    destruct (isRunning (stored_state w)) eqn:Hrun;
      unfold indicators_agree, restarted, with_badge, with_alarm, stored_state in *; cbn;
      rewrite Hrun; repeat split; try assumption.
    + now destruct exact.
    + destruct exact; [ now rewrite Halarm | ].
      intros Hon. apply Bool.andb_true_iff in Hon. now apply Halarm.
  - destruct Hinv as (Hshape & Hbadge & Halarm & Hcfg).
    pose proof (restarted_alarm exact kept w Hsurvives Halarm) as Hkept.
    unfold onInstalled, bind, getTimerState.
    change (stored_state (restarted kept w)) with (stored_state w).
    rewrite (updateBadge_draws _ _ Hshape).
    unfold indicators_agree, restarted, with_badge, with_alarm, stored_state in *. cbn.
    repeat split; assumption.
Qed.

Lemma play_indicators exact events w :
  (exact = true -> Forall alarm_survives events) ->
  indicators_agree exact w -> indicators_agree exact (play events w).
Proof.
  unfold play. revert w.
  induction events as [ | ev events IH]; intros w Hsurvive Hw; simpl; [ exact Hw | ].
  apply IH.
  - intros Hexact. specialize (Hsurvive Hexact). now inversion Hsurvive.
  - apply react_indicators; [ | exact Hw ].
    intros Hexact. specialize (Hsurvive Hexact). now inversion Hsurvive.
Qed.

Lemma installed_indicators exact cfg db : indicators_agree exact (installed cfg db).
Proof.
  repeat split; try constructor; try discriminate.
  destruct exact; [ reflexivity | discriminate ].
Qed.

(** X4. Start from the install and let the worker react to anything:
    requests with any replies of the remote store, settings saved in
    between, alarm ticks, browser start-ups and install or update events,
    each with whatever the browser kept of the badge and the alarms. At
    every point the badge is the one of the stored phase and the tick
    alarm exists only while the timer is running. When no install or
    update event cleared the alarms, the alarm exists exactly while the
    timer is running. An install or update that clears the alarms under a
    running timer leaves the timer running without its alarm:
    [onInstalled] redraws the badge and creates no alarm. *)
Theorem badge_and_alarm_follow_state cfg db events :
  let w := play events (installed cfg db) in
  w_badge w = badge_of (stored_state w) /\
  (w_alarm w = true -> isRunning (stored_state w) = true) /\
  (Forall alarm_survives events -> w_alarm w = isRunning (stored_state w)) /\
  (forall kept,
     alarms_kept kept = false -> isRunning (stored_state w) = true ->
     let w' := react w (ExtensionInstalled kept) in
     stored_state w' = stored_state w /\ w_badge w' = BadgeRunning /\ w_alarm w' = false).
Proof.
  intros w.
  pose proof (play_indicators false events (installed cfg db) ltac:(discriminate)
                (installed_indicators false cfg db)) as (Hshape & Hb & Ha & _).
  fold w in Hshape, Hb, Ha.
  split; [ exact Hb | ]. split; [ exact Ha | ]. split.
  - intros Hsurvive.
    now pose proof (play_indicators true events (installed cfg db) (fun _ => Hsurvive)
                      (installed_indicators true cfg db)) as (_ & _ & Hexact & _).
  - intros kept Hkept Hrun. simpl.
    unfold onInstalled, bind, getTimerState.
    change (stored_state (restarted kept w)) with (stored_state w).
    rewrite (updateBadge_draws _ _ Hshape). cbn.
    rewrite Hkept, Bool.andb_false_r.
    repeat split. rewrite (shape_badge _ Hshape), Hrun. reflexivity.
Qed.

(** ** Creating a session record *)

(** X5. When the schema request fails, or its reply holds no named
    relation property to the tasks database, [createWorkSession] throws
    after that single request: no page is fetched, no record is created,
    nothing is written; and in the second case the error is "Could not
    find task relation property". *)
Theorem no_relation_no_session cfg task title env w :
  relation_found cfg env = false ->
  exists e w',
    createWorkSession cfg task title env w = (Err e, w') /\
    requests w' = schema_request cfg :: requests w /\
    w_remote w' = w_remote w /\
    untouched w w' /\
    (forall db, databaseReply env = Ok db -> e = "Could not find task relation property").
Proof.
  unfold relation_found, createWorkSession, getWorkSessionsDbInfo,
    notionRequest, bind, ret, throw, untouched, writes, requests, schema_request.
  destruct (databaseReply env) as [db | e]; simpl.
  - destruct (name_or_null (find _ db)) as [name | ]; [ discriminate | ].
    intros _. simpl. do 2 eexists. repeat split; reflexivity.
  - intros _. do 2 eexists. repeat split; try reflexivity. discriminate.
Qed.

Lemma createWorkSession_success cfg task title env id w :
  relation_found cfg env = true ->
  createReply env = Ok id ->
  exists w',
    createWorkSession cfg task title env w = (Ok id, w') /\
    requests w' =
      (POST, "/pages") :: (GET, "/pages/" ++ task) :: schema_request cfg :: requests w /\
    w_remote w' =
      (w_remote w ++
       [{| rs_id := id; rs_task := task;
           rs_number := if title_found env then Some (listed_sessions cfg env + 1)%nat
                        else None;
           rs_start := stamp env; rs_end := None |}])%list /\
    untouched w w'.
Proof.
  unfold relation_found, title_found, listed_sessions, createWorkSession,
    getWorkSessionsDbInfo, getExistingSessionCount, catch_default, notionRequest,
    bind, ret, throw, modify, untouched, writes, requests, schema_request, server_create.
  intros Hfound Hcreate.
  destruct (databaseReply env) as [db | e]; [ | discriminate ]. simpl.
  destruct (name_or_null (find _ db)) as [name | ]; [ | discriminate ]. simpl.
  rewrite Hcreate.
  destruct (pageReply env) as [page | e]; simpl;
    destruct (name_or_null (find _ db)); simpl;
    eexists; repeat split; reflexivity.
Qed.

(** X6. When the schema holds the relation property and the create
    request succeeds with [id], [createWorkSession] returns [id] after
    three requests (schema, task page, create), and the remote store gains
    one record: active, linked to the task, and numbered one more than the
    sessions the task page lists when the schema has a title property. A
    failed fetch of the task page does not fail the creation: the count is
    then taken as zero. *)
Theorem created_session_record cfg task title env id w :
  relation_found cfg env = true ->
  createReply env = Ok id ->
  exists w',
    createWorkSession cfg task title env w = (Ok id, w') /\
    requests w' =
      (POST, "/pages") :: (GET, "/pages/" ++ task) :: schema_request cfg :: requests w /\
    w_remote w' =
      (w_remote w ++
       [{| rs_id := id; rs_task := task;
           rs_number := if title_found env then Some (listed_sessions cfg env + 1)%nat
                        else None;
           rs_start := stamp env; rs_end := None |}])%list /\
    untouched w w' /\
    (forall e, pageReply env = Err e ->
               rs_number (last (w_remote w') {| rs_id := ""; rs_task := ""; rs_number := None;
                                                rs_start := 0; rs_end := None |}) =
               if title_found env then Some 1%nat else None).
Proof.
  intros Hfound Hcreate.
  destruct (createWorkSession_success cfg task title env id w Hfound Hcreate)
    as (w' & Hrun & Hreq & Hdb & Hsame).
  exists w'. repeat split; try assumption; try apply Hsame.
  intros e He. rewrite Hdb, last_last. simpl.
  unfold listed_sessions. now rewrite He.
Qed.

(** ** Resume *)

(** X7. Resume on a machine that is not paused returns the stored state
    and leaves the world as it was: no request, no write, no error. *)
Theorem resume_when_not_paused env w :
  isPaused (stored_state w) = false ->
  handleResumeTimer env w = (Ok (stored_state w), w) /\
  handleMessage RESUME_TIMER env w = (StateResponse (stored_state w), w).
Proof.
  intros Hpaused. unfold_handlers. rewrite Hpaused.
  destruct (w_settings w); destruct (taskId (stored_state w)); auto.
Qed.

(** ** Transitions the remote store serves *)

Lemma start_served cfg payload env id w :
  w_settings w = Some cfg ->
  relation_found cfg env = true -> createReply env = Ok id ->
  let w' := step w (Deliver (START_TIMER payload) env) in
  stored_state w' =
    {| isRunning := true; isPaused := false;
       taskId := Some (payloadTaskId payload); taskTitle := payloadTaskTitle payload;
       currentSessionId := Some id; sessionStartTime := Some (now env);
       previousTotal := payloadPreviousTotal payload |} /\
  w_settings w' = Some cfg /\
  open_sessions (w_remote w') =
    (open_sessions (w_remote w) ++
     [{| rs_id := id; rs_task := payloadTaskId payload;
         rs_number := if title_found env then Some (listed_sessions cfg env + 1)%nat
                      else None;
         rs_start := stamp env; rs_end := None |}])%list.
Proof.
  intros Hcfg Hfound Hcreate. unfold step. unfold_handlers. rewrite Hcfg.
  destruct (createWorkSession_success cfg (payloadTaskId payload)
              (payloadTaskTitle payload) env id w Hfound Hcreate)
    as (w1 & -> & _ & Hdb & Hsame).
  simpl. destruct Hsame as (Hs & _). rewrite Hs, Hcfg, Hdb.
  repeat split. unfold open_sessions. now rewrite filter_app.
Qed.


Lemma pause_served cfg env session w :
  w_settings w = Some cfg ->
  isRunning (stored_state w) = true ->
  currentSessionId (stored_state w) = Some session -> session <> "" ->
  patchReply env = Ok tt ->
  let w' := step w (Deliver PAUSE_TIMER env) in
  stored_state w' =
    {| isRunning := false; isPaused := true;
       taskId := taskId (stored_state w); taskTitle := taskTitle (stored_state w);
       currentSessionId := None; sessionStartTime := None;
       previousTotal := previousTotal (stored_state w) +
                        getElapsedTime (now env) (sessionStartTime (stored_state w)) |} /\
  w_settings w' = Some cfg /\
  w_remote w' = server_close session (stamp env) (w_remote w).
Proof.
  intros Hcfg Hrun Hsid Hnamed Hpatch. unfold step. unfold_handlers.
  rewrite Hcfg, Hsid, Hrun. simpl.
  apply String.eqb_neq in Hnamed. rewrite Hnamed. simpl.
  split_close cfg session env w; [ congruence | ].
  simpl. destruct Hsame as (Hs & _). rewrite Hs, Hcfg, Hdb. auto.
Qed.



(** ** What the popup shows *)

(** X9. The total a completed pause stores is the total the timer display
    showed for the running state at the clock reading of the pause; after
    the pause the display shows that total at every clock reading. *)
Theorem pause_stores_displayed_total cfg env session w later :
  w_settings w = Some cfg ->
  isRunning (stored_state w) = true ->
  currentSessionId (stored_state w) = Some session -> session <> "" ->
  patchReply env = Ok tt ->
  let st' := stored_state (step w (Deliver PAUSE_TIMER env)) in
  previousTotal st' = displayed_total (now env) (stored_state w) /\
  displayed_total later st' = displayed_total (now env) (stored_state w) /\
  updateDisplay later st' = updateDisplay (now env) (stored_state w).
Proof.
  intros Hcfg Hrun Hsid Hnamed Hpatch st'.
  destruct (pause_served cfg env session w Hcfg Hrun Hsid Hnamed Hpatch) as (Hst & _).
  fold st' in Hst.
  assert (Htotal : previousTotal st' = displayed_total (now env) (stored_state w)).
  { rewrite Hst. unfold displayed_total, getElapsedTime. simpl. rewrite Hrun.
    destruct (sessionStartTime (stored_state w)) as [started | ]; simpl; [ | lia ].
    destruct (started =? 0); simpl; lia. }
  assert (Hfrozen : displayed_total later st' = previousTotal st')
    by (rewrite Hst; reflexivity).
  unfold updateDisplay. rewrite Hfrozen, Htotal. auto.
Qed.

(** X10. [getTimerStateFromWorker] leaves the world as it was. With the
    transport up it returns the stored state; with the transport down it
    returns the default idle state, whatever is stored. *)
Theorem state_read_through_channel lastError env w :
  getTimerStateFromWorker lastError env w =
    (Some match lastError with
          | None => stored_state w
          | Some _ => DEFAULT_TIMER_STATE
          end, w).
Proof. destruct lastError as [[reason [ | ]] | ]; reflexivity. Qed.

Lemma step_task w s :
  let t' := taskId (stored_state (step w s)) in
  t' = taskId (stored_state w) \/ t' = None \/
  exists payload env, s = Deliver (START_TIMER payload) env /\
                      t' = Some (payloadTaskId payload).
Proof.
  destruct s as [message env | cfg]; [ | now left ].
  unfold step. destruct message; unfold_handlers; try now left.
  - destruct (w_settings w) as [cfg | ]; [ | now left ].
    split_create cfg (payloadTaskId payload) (payloadTaskTitle payload) env w.
    + left. cbn [snd]. now rewrite (untouched_stored_state _ _ Hsame).
    + right. right. simpl. eauto.
  - destruct (w_settings w) as [cfg | ]; [ | now left ].
    destruct (currentSessionId (stored_state w)) as [session | ]; [ | now left ].
    destruct (isRunning (stored_state w) && truthy_string (Some session)); [ | now left ].
    split_close cfg session env w.
    + left. cbn [snd]. now rewrite (untouched_stored_state _ _ Hsame).
    + now left.
  - destruct (w_settings w) as [cfg | ]; [ | now left ].
    destruct (taskId (stored_state w)) as [task | ] eqn:Htask;
      [ | left; cbn [snd]; exact Htask ].
    destruct (isPaused (stored_state w) && truthy_string (Some task));
      [ | left; cbn [snd]; exact Htask ].
    split_create cfg task (title_or_untitled (taskTitle (stored_state w))) env w.
    + left. cbn [snd]. now rewrite (untouched_stored_state _ _ Hsame).
    + now left.
  - destruct (w_settings w) as [cfg | ]; [ | now (right; left) ].
    destruct (currentSessionId (stored_state w)) as [session | ]; [ | now (right; left) ].
    destruct (isRunning (stored_state w) && truthy_string (Some session));
      [ | now (right; left) ].
    split_close cfg session env w.
    + left. cbn [snd]. now rewrite (untouched_stored_state _ _ Hsame).
    + now (right; left).
Qed.

Lemma run_task_named steps : forall w,
  tasks_named steps -> taskId (stored_state w) <> Some "" ->
  taskId (stored_state (run steps w)) <> Some "".
Proof.
  induction steps as [ | s steps IH]; intros w Hnamed Hw; simpl.
  - exact Hw.
  - apply IH.
    + intros payload env Hin. apply (Hnamed payload env). now right.
    + destruct (step_task w s) as [-> | [-> | (payload & env & -> & ->)]].
      * exact Hw.
      * discriminate.
      * intros [= Hempty]. apply (Hnamed payload env); [ now left | exact Hempty ].
Qed.

(** X11. In a run from the install whose start requests all name their
    task, the popup opens on the timer view exactly when the stored phase
    is not idle. *)
Theorem popup_opens_on_tracked_timer cfg db steps :
  tasks_named steps ->
  let st := stored_state (run steps (installed cfg db)) in
  opening_view st = timer <-> phase st <> idle.
Proof.
  intros Hnamed st.
  assert (Hshape : shape st) by apply run_shape, installed_shape.
  assert (Htask : taskId st <> Some "")
    by (apply run_task_named; [ exact Hnamed | discriminate ]).
  unfold opening_view, phase.
  destruct Hshape as [ | task title session started total | task title total]; simpl in *.
  - split; [ discriminate | intros H; now contradiction H ].
  - destruct (task =? "")%string eqn:Hempty; simpl.
    + apply String.eqb_eq in Hempty. subst. now contradiction Htask.
    + split; [ discriminate | reflexivity ].
  - destruct (task =? "")%string eqn:Hempty; simpl.
    + apply String.eqb_eq in Hempty. subst. now contradiction Htask.
    + split; [ discriminate | reflexivity ].
Qed.

(** X12. Each of the four timer controls of the popup sets its error
    message exactly when the transport reports an error, and then the
    view stays; the worker's world is then the one the listener left when
    the message had been delivered before the channel failed, and the one
    before when it had not. With the transport up the message is left as
    it was, whatever the worker answered, and the world is the one the
    listener left. *)
Theorem controls_report_transport_only lastError task title total env ui w :
  let start := START_TIMER {| payloadTaskId := task; payloadTaskTitle := title;
                              payloadPreviousTotal := total |} in
  let outcomes :=
    [ (startTimer lastError task title total env ui w, start, "Failed to start timer");
      (pauseTimer lastError env ui w, PAUSE_TIMER, "Failed to pause timer");
      (resumeTimer lastError env ui w, RESUME_TIMER, "Failed to resume timer");
      (stopTimer lastError env ui w, STOP_TIMER, "Failed to stop timer") ] in
  Forall (fun '(outcome, message, text) =>
            match lastError with
            | Some err =>
                outcome =
                  ({| currentView := currentView ui; errorMessage := Some text |},
                   if te_delivered err then step w (Deliver message env) else w)
            | None =>
                errorMessage (fst outcome) = errorMessage ui /\
                snd outcome = step w (Deliver message env)
            end) outcomes.
Proof.
  intros start outcomes. subst start outcomes.
  destruct lastError as [err | ].
  - repeat constructor.
  - unfold startTimer, pauseTimer, resumeTimer, stopTimer, sendMessage, step.
    repeat constructor; cbn [fst snd];
      match goal with
      | |- context [handleMessage ?m ?e ?w] => destruct (handleMessage m e w)
      end; reflexivity.
Qed.

(** * Further properties of the time helpers *)

(** On a safe integer the quotients of [formatTimeShort] are the exact
    ones. *)
Lemma formatTimeShort_safe ms :
  - MAX_SAFE_INTEGER <= ms <= MAX_SAFE_INTEGER ->
  formatTimeShort ms =
    let totalMinutes := ms / 60000 in
    let hours := totalMinutes / 60 in
    let minutes := Z.rem totalMinutes 60 in
    if 0 <? hours then
      if 0 <? minutes
      then toString hours ++ "h " ++ toString minutes ++ "m"
      else toString hours ++ "h"
    else if 0 <? minutes then toString minutes ++ "m"
    else toString (ms / 1000) ++ "s".
Proof.
  intros Hms. unfold formatTimeShort.
  pose proof (quotient_safe ms 60000 Hms ltac:(lia)) as Hminutes.
  rewrite (floor_quotient_exact ms 60000), (floor_quotient_exact ms 1000) by (assumption || lia).
  rewrite (floor_quotient_exact (ms / 60000) 60) by (assumption || lia).
  reflexivity.
Qed.

Lemma short_form_below_a_minute ms :
  - MAX_SAFE_INTEGER <= ms < 60000 -> formatTimeShort ms = toString (ms / 1000) ++ "s".
Proof.
  intros Hms.
  assert (Hmax : 60000 <= MAX_SAFE_INTEGER) by discriminate.
  rewrite formatTimeShort_safe by lia. cbv zeta.
  assert (Hminutes : ms / 60000 <= 0).
  { destruct (Z_le_gt_dec (ms / 60000) 0) as [ | Hpos]; [ assumption | ].
    pose proof (Z.mul_div_le ms 60000 ltac:(lia)). lia. }
  assert (Hhours : ms / 60000 / 60 <= 0).
  { destruct (Z_le_gt_dec (ms / 60000 / 60) 0) as [ | Hpos]; [ assumption | ].
    pose proof (Z.mul_div_le (ms / 60000) 60 ltac:(lia)). lia. }
  assert (Hrem : Z.rem (ms / 60000) 60 <= 0).
  { destruct (Z.eq_dec (ms / 60000) 0) as [-> | Hnz]; [ reflexivity | ].
    pose proof (Z.rem_sign_nz (ms / 60000) 60 ltac:(lia)) as Hsign.
    destruct (Z_le_gt_dec (Z.rem (ms / 60000) 60) 0) as [ | Hpos]; [ assumption | ].
    destruct (Z.eq_dec (Z.rem (ms / 60000) 60) 0) as [Hz | Hnz']; [ lia | ].
    specialize (Hsign Hnz').
    rewrite (Z.sgn_pos (Z.rem _ _)), (Z.sgn_neg (ms / 60000)) in Hsign by lia.
    discriminate. }
  destruct (Z.ltb_spec 0 (ms / 60000 / 60)); [ lia | ].
  destruct (Z.ltb_spec 0 (Z.rem (ms / 60000) 60)); [ lia | ].
  reflexivity.
Qed.

(** X13. On safe integers (magnitude at most 2^53 - 1), [formatTimeShort]
    shows whole seconds for every count below one minute, negative counts
    included; from one minute on it shows hours and minutes only, so that
    two counts with the same whole minutes read the same; and it leaves
    out the minutes of a whole number of hours. *)
Theorem short_form_truncates :
  (forall ms, - MAX_SAFE_INTEGER <= ms < 60000 ->
              formatTimeShort ms = toString (ms / 1000) ++ "s") /\
  (forall a b, 60000 <= a <= MAX_SAFE_INTEGER -> b <= MAX_SAFE_INTEGER ->
               a / 60000 = b / 60000 ->
               formatTimeShort a = formatTimeShort b) /\
  (forall ms, 3600000 <= ms <= MAX_SAFE_INTEGER -> (ms / 60000) mod 60 = 0 ->
              formatTimeShort ms = toString (ms / 3600000) ++ "h").
Proof.
  assert (Hmax : 0 < MAX_SAFE_INTEGER) by reflexivity.
  split; [ exact short_form_below_a_minute | split ].
  - intros a b Ha Hb Hsame.
    assert (Hminutes : 1 <= a / 60000) by (apply Z.div_le_lower_bound; lia).
    assert (Hlow : 60000 <= b).
    { destruct (Z_lt_le_dec b 60000) as [Hless | ]; [ | assumption ].
      assert (b / 60000 < 1) by (apply Z.div_lt_upper_bound; lia). lia. }
    rewrite !formatTimeShort_safe by lia. cbv zeta. rewrite <- Hsame.
    rewrite Z.rem_mod_nonneg by lia.
    destruct (Z.ltb_spec 0 (a / 60000 / 60)) as [ | Hhours]; [ reflexivity | ].
    assert (Hzero : a / 60000 / 60 = 0)
      by (pose proof (Z.div_pos (a / 60000) 60); lia).
    assert (Hsmall : (a / 60000) mod 60 = a / 60000).
    { pose proof (Z.div_mod (a / 60000) 60 ltac:(lia)). lia. }
    rewrite Hsmall.
    destruct (Z.ltb_spec 0 (a / 60000)); [ reflexivity | lia ].
  - intros ms Hms Hwhole. rewrite formatTimeShort_safe by lia. cbv zeta.
    assert (Hminutes : 60 <= ms / 60000) by (apply Z.div_le_lower_bound; lia).
    rewrite Z.rem_mod_nonneg by lia. rewrite Hwhole.
    assert (Hhours : 1 <= ms / 60000 / 60) by (apply Z.div_le_lower_bound; lia).
    destruct (Z.ltb_spec 0 (ms / 60000 / 60)); [ | lia ].
    simpl. rewrite Z.div_div by lia. reflexivity.
Qed.

(** ** Reading a formatted time back *)

(** X14. Two non-negative millisecond counts that are safe integers (at
    most 2^53 - 1) are formatted alike by [formatTime] exactly when they
    have the same whole seconds: the formatted time determines the
    seconds it stands for. *)
Theorem formatTime_tells_seconds a b :
  0 <= a <= MAX_SAFE_INTEGER -> 0 <= b <= MAX_SAFE_INTEGER ->
  (formatTime a = formatTime b <-> a / 1000 = b / 1000).
Proof.
  intros Ha Hb. rewrite (formatTime_safe a Ha), (formatTime_safe b Hb).
  split; [ | now intros -> ].
  assert (Hta : 0 <= a / 1000 <= MAX_SAFE_INTEGER)
    by (pose proof (quotient_safe a 1000 ltac:(lia) ltac:(lia));
        pose proof (Z.div_pos a 1000 ltac:(lia) ltac:(lia)); lia).
  assert (Htb : 0 <= b / 1000 <= MAX_SAFE_INTEGER)
    by (pose proof (quotient_safe b 1000 ltac:(lia) ltac:(lia));
        pose proof (Z.div_pos b 1000 ltac:(lia) ltac:(lia)); lia).
  set (ta := a / 1000) in *. set (tb := b / 1000) in *.
  destruct (clock_parts_safe ta Hta) as (Hha & Hma & Hsa).
  destruct (clock_parts_safe tb Htb) as (Hhb & Hmb & Hsb).
  intros Heq.
  apply split_at_colon in Heq; try (apply padZero_colon_free; assumption).
  destruct Heq as (Hh & Heq).
  apply split_at_colon in Heq; try (apply padZero_colon_free; assumption).
  destruct Heq as (Hm & Hs).
  assert (Hvalue : forall x y, 0 <= x <= MAX_SAFE_INTEGER -> 0 <= y <= MAX_SAFE_INTEGER ->
                               padZero x = padZero y -> x = y).
  { intros x y Hx Hy Hpad.
    destruct (padZero_numeral x Hx) as (Hvx & _).
    destruct (padZero_numeral y Hy) as (Hvy & _).
    rewrite Hpad in Hvx. congruence. }
  apply Hvalue in Hh, Hm, Hs; try assumption.
  rewrite <- (seconds_split ta ltac:(lia)), <- (seconds_split tb ltac:(lia)). congruence.
Qed.

(** ** Totals over work sessions *)









(** * Further properties of the task list *)

Lemma startTimer_up task title total env ui w :
  startTimer None task title total env ui w =
  ({| currentView := timer; errorMessage := errorMessage ui |},
   step w (Deliver (START_TIMER {| payloadTaskId := task; payloadTaskTitle := title;
                                   payloadPreviousTotal := total |}) env)).
Proof.
  unfold startTimer, sendMessage, step.
  destruct (handleMessage _ env w); reflexivity.
Qed.

Lemma stopTimer_up env ui w :
  stopTimer None env ui w =
  ({| currentView := tasks; errorMessage := errorMessage ui |},
   step w (Deliver STOP_TIMER env)).
Proof.
  unfold stopTimer, sendMessage, step.
  destruct (handleMessage _ env w); reflexivity.
Qed.

Lemma endActiveSession_cases key session env w :
  (exists e w', endActiveSession key session env w = (Err e, w') /\
                patchReply env = Err e /\
                untouched w w' /\ w_remote w' = w_remote w) \/
  (exists w', endActiveSession key session env w = (Ok tt, w') /\
              patchReply env = Ok tt /\
              untouched w w' /\
              w_remote w' = server_close session (stamp env) (w_remote w)).
Proof.
  unfold endActiveSession, notionRequest, bind, modify, untouched, writes.
  destruct (patchReply env) as [[] | e]; simpl.
  - right. eexists. repeat split; reflexivity.
  - left. do 2 eexists. repeat split; reflexivity.
Qed.

(** X18. Play on a task that the task list shows with an active session
    of the remote store, with the transport up and the start served: the
    popup first asks the remote store to end that session. If that
    succeeds, the session is closed before the new one is opened and the
    timer starts with the task's completed time plus the time the ended
    session had run; if it fails, the timer starts all the same, with the
    completed time alone, and the session stays open next to the new
    one. *)
Theorem play_folds_active_session pcfg cfg task active started penv wenv id ui w :
  task_activeSession task = Some (active, started) ->
  w_settings w = Some cfg ->
  relation_found cfg wenv = true -> createReply wenv = Ok id ->
  let (ui', w') := startTrackingTask None pcfg task penv wenv ui w in
  currentView ui' = timer /\
  isRunning (stored_state w') = true /\
  taskId (stored_state w') = Some (task_id task) /\
  currentSessionId (stored_state w') = Some id /\
  previousTotal (stored_state w') =
    match patchReply penv with
    | Ok _ => task_totalTrackedTime task + (now penv - started)
    | Err _ => task_totalTrackedTime task
    end /\
  map rs_id (open_sessions (w_remote w')) =
    (match patchReply penv with
     | Ok _ => filter (fun other => negb (other =? active)%string)
                 (map rs_id (open_sessions (w_remote w)))
     | Err _ => map rs_id (open_sessions (w_remote w))
     end ++ [id])%list.
Proof.
  intros Hactive Hcfg Hfound Hcreate. unfold startTrackingTask. rewrite Hactive.
  destruct (endActiveSession_cases (apiKey pcfg) active penv w)
    as [(e & w1 & -> & -> & Hsame & Hdb) | (w1 & -> & -> & Hsame & Hdb)];
    rewrite startTimer_up;
    assert (Hcfg1 : w_settings w1 = Some cfg)
      by (destruct Hsame as (-> & _); exact Hcfg);
    match goal with
    | |- context [step w1 (Deliver (START_TIMER ?p) wenv)] =>
        destruct (start_served cfg p wenv id w1 Hcfg1 Hfound Hcreate) as (-> & _ & ->)
    end;
    simpl; repeat split; rewrite Hdb, map_app; simpl; f_equal.
  rewrite open_sessions_close.
  induction (open_sessions (w_remote w)) as [ | r l IH]; simpl; [ reflexivity | ].
  destruct (rs_id r =? active)%string; simpl; now rewrite IH.
Qed.

Lemma stop_served cfg env w :
  tracks_open_sessions w -> w_settings w = Some cfg -> patchReply env = Ok tt ->
  let w' := step w (Deliver STOP_TIMER env) in
  stored_state w' = DEFAULT_TIMER_STATE /\
  open_sessions (w_remote w') = [] /\
  w_settings w' = Some cfg.
Proof.
  intros (Hshape & Hopen & Hrun) Hcfg Hpatch. unfold step. unfold_handlers. rewrite Hcfg.
  destruct (currentSessionId (stored_state w)) as [session | ] eqn:Hsid.
  - destruct (isRunning (stored_state w) && truthy_string (Some session)) eqn:Hguard.
    + split_close cfg session env w; [ congruence | ].
      simpl. destruct Hsame as (-> & _).
      rewrite Hdb, (close_the_open_session _ _ _ Hopen). auto.
    + exfalso. remember (stored_state w) as st eqn:Hst.
      destruct Hshape; simpl in *; try discriminate.
      destruct Hrun as (_ & Htruthy); [ reflexivity | ].
      injection Hsid as ->. rewrite Htruthy in Hguard. discriminate.
  - simpl. rewrite Hcfg. apply map_eq_nil in Hopen. auto.
Qed.

(** X19. Confirming a switch to a pending task that has no active
    session, from a world whose stored state names the open records, with
    the transport up and both the stop and the start served: the modal
    closes, the popup shows the timer view, the timer runs on the pending
    task with that task's completed time, and the remote store has exactly
    one open session record, the new one. *)
Theorem switch_leaves_one_open_session pcfg cfg task senv penv wenv id tl w :
  tracks_open_sessions w ->
  w_settings w = Some cfg ->
  tl_pendingTask tl = Some task -> task_activeSession task = None ->
  patchReply senv = Ok tt ->
  relation_found cfg wenv = true -> createReply wenv = Ok id ->
  let (tl', w') := handleConfirmSwitch None None pcfg senv penv wenv tl w in
  tl_showSwitchModal tl' = false /\ tl_pendingTask tl' = None /\
  currentView (tl_ui tl') = timer /\
  stored_state w' =
    {| isRunning := true; isPaused := false;
       taskId := Some (task_id task); taskTitle := task_title task;
       currentSessionId := Some id; sessionStartTime := Some (now wenv);
       previousTotal := task_totalTrackedTime task |} /\
  map rs_id (open_sessions (w_remote w')) = [id].
Proof.
  intros Hinv Hcfg Hpending Hquiet Hpatch Hfound Hcreate.
  unfold handleConfirmSwitch, startTrackingTask.
  rewrite Hpending, Hquiet, stopTimer_up, startTimer_up.
  destruct (stop_served cfg senv w Hinv Hcfg Hpatch) as (_ & Hclosed & Hcfg1).
  match goal with
  | |- context [step ?w1 (Deliver (START_TIMER ?p) wenv)] =>
      destruct (start_served cfg p wenv id w1 Hcfg1 Hfound Hcreate) as (-> & _ & ->)
  end.
  rewrite Hclosed. simpl. auto.
Qed.

(** X20. Confirming a switch while the stop cannot close the running
    session (the remote store refuses the close): the popup shows no
    error and goes on to start the pending task, so the timer runs on the
    pending task while the session of the task before stays open in the
    remote store next to the new one, and no stored state names it any
    more. *)
Theorem switch_after_failed_stop_orphans_session
    pcfg cfg task senv penv wenv old id e tl w :
  tracks_open_sessions w ->
  w_settings w = Some cfg ->
  isRunning (stored_state w) = true ->
  currentSessionId (stored_state w) = Some old ->
  tl_pendingTask tl = Some task -> task_activeSession task = None ->
  patchReply senv = Err e ->
  relation_found cfg wenv = true -> createReply wenv = Ok id ->
  let (tl', w') := handleConfirmSwitch None None pcfg senv penv wenv tl w in
  errorMessage (tl_ui tl') = errorMessage (tl_ui tl) /\
  currentView (tl_ui tl') = timer /\
  taskId (stored_state w') = Some (task_id task) /\
  currentSessionId (stored_state w') = Some id /\
  map rs_id (open_sessions (w_remote w')) = [old; id].
Proof.
  intros (Hshape & Hopen & Htruthy) Hcfg Hrun Hsid Hpending Hquiet Hpatch Hfound Hcreate.
  unfold handleConfirmSwitch, startTrackingTask.
  rewrite Hpending, Hquiet, stopTimer_up, startTimer_up.
  assert (Hstop : untouched w (step w (Deliver STOP_TIMER senv)) /\
                  w_remote (step w (Deliver STOP_TIMER senv)) = w_remote w).
  { unfold step. unfold_handlers. rewrite Hcfg, Hsid, Hrun.
    destruct (Htruthy Hrun) as (_ & Hnamed). rewrite Hsid in Hnamed. rewrite Hnamed.
    simpl. split_close cfg old senv w; [ | congruence ]. simpl. auto. }
  destruct Hstop as (Hsame & Hdb).
  assert (Hcfg1 : w_settings (step w (Deliver STOP_TIMER senv)) = Some cfg)
    by (destruct Hsame as (-> & _); exact Hcfg).
  match goal with
  | |- context [step ?w1 (Deliver (START_TIMER ?p) wenv)] =>
      destruct (start_served cfg p wenv id w1 Hcfg1 Hfound Hcreate) as (-> & _ & ->)
  end.
  rewrite Hdb, map_app, Hopen, Hsid. simpl. auto.
Qed.

(** X21. Play on the task that is already running, with a task list that
    shows no active session for it (it was loaded before the start): the
    popup raises no modal and starts the task again. With the transport up
    and the start served, the running session stays open in the remote
    store next to the new one, and the stored state names only the new
    one. *)
Theorem play_on_running_task_opens_second_session
    pcfg cfg task penv wenv old id tl w :
  tracks_open_sessions w ->
  w_settings w = Some cfg ->
  isRunning (stored_state w) = true ->
  taskId (stored_state w) = Some (task_id task) ->
  currentSessionId (stored_state w) = Some old ->
  task_activeSession task = None ->
  relation_found cfg wenv = true -> createReply wenv = Ok id ->
  let (tl', w') := handlePlayTask None pcfg (stored_state w) task penv wenv tl w in
  tl_showSwitchModal tl' = tl_showSwitchModal tl /\
  tl_pendingTask tl' = tl_pendingTask tl /\
  currentView (tl_ui tl') = timer /\
  currentSessionId (stored_state w') = Some id /\
  map rs_id (open_sessions (w_remote w')) = [old; id].
Proof.
  intros (Hshape & Hopen & _) Hcfg Hrun Htask Hsid Hquiet Hfound Hcreate.
  unfold handlePlayTask, startTrackingTask.
  assert (Hpaused : isPaused (stored_state w) = false).
  { remember (stored_state w) as st eqn:Hst.
    destruct Hshape; simpl in *; try discriminate. reflexivity. }
  rewrite Htask, Hpaused, Hquiet. simpl.
  rewrite String.eqb_refl, andb_false_r. simpl.
  rewrite startTimer_up, andb_false_r. cbv beta iota zeta.
  match goal with
  | |- context [step w (Deliver (START_TIMER ?p) wenv)] =>
      destruct (start_served cfg p wenv id w Hcfg Hfound Hcreate) as (-> & _ & ->)
  end.
  rewrite map_app, Hopen, Hsid. simpl. auto.
Qed.

(** X22. When play starts a timer for a task (transport up, the start
    served, and the end of the task's active session, if it has one,
    served too), the timer starts from the time the task item showed at
    the clock reading of the click. *)
Theorem timer_starts_from_displayed_time pcfg cfg task penv wenv id ui w :
  w_settings w = Some cfg ->
  patchReply penv = Ok tt ->
  relation_found cfg wenv = true -> createReply wenv = Ok id ->
  let (ui', w') := startTrackingTask None pcfg task penv wenv ui w in
  previousTotal (stored_state w') = displayTime (now penv) task /\
  displayed_total (now wenv) (stored_state w') = displayTime (now penv) task.
Proof.
  intros Hcfg Hpatch Hfound Hcreate. unfold startTrackingTask, displayTime.
  destruct (task_activeSession task) as [[active started] | ].
  - destruct (endActiveSession_cases (apiKey pcfg) active penv w)
      as [(e & w1 & _ & Hfail & _) | (w1 & -> & _ & Hsame & _)]; [ congruence | ].
    rewrite startTimer_up.
    assert (Hcfg1 : w_settings w1 = Some cfg)
      by (destruct Hsame as (-> & _); exact Hcfg).
    match goal with
    | |- context [step w1 (Deliver (START_TIMER ?p) wenv)] =>
        destruct (start_served cfg p wenv id w1 Hcfg1 Hfound Hcreate) as (-> & _)
    end.
    unfold displayed_total. simpl. destruct (now wenv =? 0) eqn:Hzero; simpl; [ auto | ].
    split; [ reflexivity | lia ].
  - rewrite startTimer_up.
    match goal with
    | |- context [step w (Deliver (START_TIMER ?p) wenv)] =>
        destruct (start_served cfg p wenv id w Hcfg Hfound Hcreate) as (-> & _)
    end.
    unfold displayed_total. simpl. destruct (now wenv =? 0) eqn:Hzero; simpl; [ auto | ].
    split; [ reflexivity | lia ].
Qed.

(** ** The further theorems at sample inputs *)

Example short_form_samples :
  formatTimeShort 59999 = "59s" /\
  formatTimeShort 60000 = "1m" /\
  formatTimeShort 5400000 = "1h 30m" /\
  formatTimeShort 7200000 = "2h" /\
  formatTimeShort (-7200000) = "-7200s".
Proof. repeat split. Qed.

Example sample_sessions_total :
  calculateTotalTime sample_clock sample_sessions = (1800000, Some ("p3", 39600000)).
Proof. reflexivity. Qed.

(** A start while the remote store is down. *)
Lemma error_response_changes_nothing_witness :
  handleMessage (START_TIMER sample_payload) (env_down 1000)
      (installed (Some sample_settings) []) =
    (ErrorResponse "Notion API error: 500",
     snd (handleMessage (START_TIMER sample_payload) (env_down 1000)
            (installed (Some sample_settings) []))) /\
  untouched (installed (Some sample_settings) [])
    (snd (handleMessage (START_TIMER sample_payload) (env_down 1000)
            (installed (Some sample_settings) []))) /\
  w_remote (snd (handleMessage (START_TIMER sample_payload) (env_down 1000)
                   (installed (Some sample_settings) []))) = [].
Proof.
  split; [ reflexivity | ].
  apply (error_response_changes_nothing (START_TIMER sample_payload) (env_down 1000)
           (installed (Some sample_settings) []) "Notion API error: 500").
  reflexivity.
Defined.

(** The answer to the pause of the running task T1. *)
Lemma answered_state_is_stored_witness :
  handleMessage PAUSE_TIMER (env_up 6000 "s0") (started_at 1000) =
    (StateResponse (stored_state paused_world), paused_world) /\
  stored_state paused_world = stored_state paused_world.
Proof.
  split; [ reflexivity | ].
  apply (answered_state_is_stored PAUSE_TIMER (env_up 6000 "s0") (started_at 1000)).
  left. reflexivity.
Defined.

Lemma no_relation_no_session_witness :
  relation_found sample_settings (env_unrelated 1000) = false /\
  exists e w',
    createWorkSession sample_settings "T1" "Write report" (env_unrelated 1000)
      (installed (Some sample_settings) []) = (Err e, w') /\
    requests w' = schema_request sample_settings ::
                  requests (installed (Some sample_settings) []) /\
    w_remote w' = w_remote (installed (Some sample_settings) []) /\
    untouched (installed (Some sample_settings) []) w' /\
    (forall db, databaseReply (env_unrelated 1000) = Ok db ->
                e = "Could not find task relation property").
Proof.
  split; [ reflexivity | ].
  apply (no_relation_no_session sample_settings "T1" "Write report" (env_unrelated 1000)
           (installed (Some sample_settings) [])).
  reflexivity.
Defined.

(** A session created while the task page cannot be fetched. *)
Lemma created_session_record_witness :
  relation_found sample_settings (env_pageless 1000 "s1") = true /\
  createReply (env_pageless 1000 "s1") = Ok "s1" /\
  exists w',
    createWorkSession sample_settings "T1" "Write report" (env_pageless 1000 "s1")
      (installed (Some sample_settings) []) = (Ok "s1", w') /\
    w_remote w' = [{| rs_id := "s1"; rs_task := "T1"; rs_number := Some 1%nat;
                      rs_start := 1000; rs_end := None |}].
Proof.
  split; [ reflexivity | ]. split; [ reflexivity | ].
  destruct (created_session_record sample_settings "T1" "Write report"
              (env_pageless 1000 "s1") "s1" (installed (Some sample_settings) [])
              eq_refl eq_refl) as (w' & Hrun & _ & Hdb & _).
  exists w'. split; [ exact Hrun | exact Hdb ].
Defined.

(** Resume of the running task T1. *)
Lemma resume_when_not_paused_witness :
  isPaused (stored_state (started_at 1000)) = false /\
  handleResumeTimer (env_up 2000 "s2") (started_at 1000) =
    (Ok (stored_state (started_at 1000)), started_at 1000) /\
  handleMessage RESUME_TIMER (env_up 2000 "s2") (started_at 1000) =
    (StateResponse (stored_state (started_at 1000)), started_at 1000).
Proof.
  split; [ reflexivity | ].
  apply (resume_when_not_paused (env_up 2000 "s2") (started_at 1000)). reflexivity.
Defined.


(** Pause of the running task T1, started at 1000, at 6000. *)
Lemma pause_stores_displayed_total_witness :
  w_settings (started_at 1000) = Some sample_settings /\
  isRunning (stored_state (started_at 1000)) = true /\
  currentSessionId (stored_state (started_at 1000)) = Some "s1" /\ "s1" <> "" /\
  patchReply (env_up 6000 "s0") = Ok tt /\
  previousTotal (stored_state (step (started_at 1000) (Deliver PAUSE_TIMER (env_up 6000 "s0"))))
    = displayed_total 6000 (stored_state (started_at 1000)) /\
  displayed_total 99000
    (stored_state (step (started_at 1000) (Deliver PAUSE_TIMER (env_up 6000 "s0"))))
    = displayed_total 6000 (stored_state (started_at 1000)) /\
  updateDisplay 99000
    (stored_state (step (started_at 1000) (Deliver PAUSE_TIMER (env_up 6000 "s0"))))
    = updateDisplay 6000 (stored_state (started_at 1000)).
Proof.
  do 3 (split; [ reflexivity | ]). split; [ discriminate | ]. split; [ reflexivity | ].
  apply (pause_stores_displayed_total sample_settings (env_up 6000 "s0") "s1"
           (started_at 1000) 99000); try reflexivity; discriminate.
Defined.

(** The popup opened while task T1 is paused. *)
Lemma popup_opens_on_tracked_timer_witness :
  let steps := [SaveSettings sample_settings;
                Deliver (START_TIMER sample_payload) (env_up 1000 "s1");
                Deliver PAUSE_TIMER (env_up 6000 "s0")] in
  tasks_named steps /\
  (opening_view (stored_state (run steps (installed None []))) = timer <->
   phase (stored_state (run steps (installed None []))) <> idle).
Proof.
  intros steps.
  assert (Hnamed : tasks_named steps).
  { intros payload env [Hin | [Hin | [Hin | []]]]; try discriminate.
    injection Hin as <- _. discriminate. }
  split; [ exact Hnamed | ].
  apply (popup_opens_on_tracked_timer None [] steps Hnamed).
Defined.

Lemma short_form_truncates_witness :
  (- MAX_SAFE_INTEGER <= -7200000 < 60000 /\
   formatTimeShort (-7200000) = toString (-7200000 / 1000) ++ "s") /\
  (60000 <= 5400000 <= MAX_SAFE_INTEGER /\ 5459999 <= MAX_SAFE_INTEGER /\
   5400000 / 60000 = 5459999 / 60000 /\
   formatTimeShort 5400000 = formatTimeShort 5459999) /\
  (3600000 <= 7230000 <= MAX_SAFE_INTEGER /\ (7230000 / 60000) mod 60 = 0 /\
   formatTimeShort 7230000 = toString (7230000 / 3600000) ++ "h").
Proof.
  destruct short_form_truncates as (Hseconds & Hminutes & Hhours).
  unfold MAX_SAFE_INTEGER in *.
  split; [ split; [ lia | apply Hseconds; lia ] | ].
  split.
  - split; [ lia | ]. split; [ lia | ]. split; [ reflexivity | ].
    apply Hminutes; [ lia | lia | reflexivity ].
  - split; [ lia | split; [ reflexivity | apply Hhours; [ lia | reflexivity ] ] ].
Defined.

Lemma formatTime_tells_seconds_witness :
  0 <= 3661000 <= MAX_SAFE_INTEGER /\ 0 <= 3661999 <= MAX_SAFE_INTEGER /\
  (formatTime 3661000 = formatTime 3661999 <-> 3661000 / 1000 = 3661999 / 1000).
Proof.
  unfold MAX_SAFE_INTEGER.
  split; [ lia | ]. split; [ lia | ].
  apply (formatTime_tells_seconds 3661000 3661999); unfold MAX_SAFE_INTEGER; lia.
Defined.


(** Play on task T2, whose session "s7" has been open since 500000. *)
Lemma play_folds_active_session_witness :
  task_activeSession (sample_task (Some ("s7", 500000))) = Some ("s7", 500000) /\
  w_settings (installed (Some sample_settings) []) = Some sample_settings /\
  relation_found sample_settings (env_up 800100 "s8") = true /\
  createReply (env_up 800100 "s8") = Ok "s8" /\
  let (ui', w') := startTrackingTask None sample_settings (sample_task (Some ("s7", 500000)))
                     (env_up 800000 "s0") (env_up 800100 "s8") sample_ui
                     (installed (Some sample_settings) []) in
  previousTotal (stored_state w') = 1800000 + (800000 - 500000).
Proof.
  do 4 (split; [ reflexivity | ]).
  pose proof (play_folds_active_session sample_settings sample_settings
                (sample_task (Some ("s7", 500000))) "s7" 500000
                (env_up 800000 "s0") (env_up 800100 "s8") "s8" sample_ui
                (installed (Some sample_settings) []) eq_refl eq_refl eq_refl eq_refl)
    as Hplay.
  destruct (startTrackingTask None sample_settings (sample_task (Some ("s7", 500000)))
              (env_up 800000 "s0") (env_up 800100 "s8") sample_ui
              (installed (Some sample_settings) [])) as [ui' w'].
  destruct Hplay as (_ & _ & _ & _ & Htotal & _). exact Htotal.
Defined.

Lemma started_world_tracks : tracks_open_sessions (started_at 1000).
Proof.
  repeat split; try discriminate; try reflexivity. constructor.
Qed.

(** Switch from the running task T1 to task T2. *)
Lemma switch_leaves_one_open_session_witness :
  tracks_open_sessions (started_at 1000) /\
  w_settings (started_at 1000) = Some sample_settings /\
  tl_pendingTask (sample_list (Some (sample_task None))) = Some (sample_task None) /\
  task_activeSession (sample_task None) = None /\
  patchReply (env_up 9000 "s0") = Ok tt /\
  relation_found sample_settings (env_up 9100 "s2") = true /\
  createReply (env_up 9100 "s2") = Ok "s2" /\
  let (tl', w') := handleConfirmSwitch None None sample_settings (env_up 9000 "s0")
                     (env_up 9050 "s0") (env_up 9100 "s2")
                     (sample_list (Some (sample_task None))) (started_at 1000) in
  taskId (stored_state w') = Some "T2" /\
  map rs_id (open_sessions (w_remote w')) = ["s2"].
Proof.
  split; [ exact started_world_tracks | ]. do 6 (split; [ reflexivity | ]).
  pose proof (switch_leaves_one_open_session sample_settings sample_settings
                (sample_task None) (env_up 9000 "s0") (env_up 9050 "s0")
                (env_up 9100 "s2") "s2" (sample_list (Some (sample_task None)))
                (started_at 1000) started_world_tracks
                eq_refl eq_refl eq_refl eq_refl eq_refl eq_refl) as Hswitch.
  destruct (handleConfirmSwitch None None sample_settings (env_up 9000 "s0")
              (env_up 9050 "s0") (env_up 9100 "s2")
              (sample_list (Some (sample_task None))) (started_at 1000)) as [tl' w'].
  destruct Hswitch as (_ & _ & _ & Hstate & Hopen).
  split; [ now rewrite Hstate | exact Hopen ].
Defined.

(** The same switch while the remote store refuses the close. *)
Lemma switch_after_failed_stop_orphans_session_witness :
  tracks_open_sessions (started_at 1000) /\
  w_settings (started_at 1000) = Some sample_settings /\
  isRunning (stored_state (started_at 1000)) = true /\
  currentSessionId (stored_state (started_at 1000)) = Some "s1" /\
  tl_pendingTask (sample_list (Some (sample_task None))) = Some (sample_task None) /\
  task_activeSession (sample_task None) = None /\
  patchReply (env_readonly 9000 "s0") = Err "Notion API error: 409" /\
  relation_found sample_settings (env_up 9100 "s2") = true /\
  createReply (env_up 9100 "s2") = Ok "s2" /\
  let (tl', w') := handleConfirmSwitch None None sample_settings (env_readonly 9000 "s0")
                     (env_up 9050 "s0") (env_up 9100 "s2")
                     (sample_list (Some (sample_task None))) (started_at 1000) in
  errorMessage (tl_ui tl') = None /\
  map rs_id (open_sessions (w_remote w')) = ["s1"; "s2"].
Proof.
  split; [ exact started_world_tracks | ]. do 8 (split; [ reflexivity | ]).
  pose proof (switch_after_failed_stop_orphans_session sample_settings sample_settings
                (sample_task None) (env_readonly 9000 "s0") (env_up 9050 "s0")
                (env_up 9100 "s2") "s1" "s2" "Notion API error: 409"
                (sample_list (Some (sample_task None)))
                (started_at 1000) started_world_tracks
                eq_refl eq_refl eq_refl eq_refl eq_refl eq_refl eq_refl eq_refl) as Hswitch.
  destruct (handleConfirmSwitch None None sample_settings (env_readonly 9000 "s0")
              (env_up 9050 "s0") (env_up 9100 "s2")
              (sample_list (Some (sample_task None))) (started_at 1000)) as [tl' w'].
  destruct Hswitch as (Herror & _ & _ & _ & Hopen).
  split; [ exact Herror | exact Hopen ].
Defined.

(** Play on the running task T1, which the task list holds without an
    active session. *)
Lemma play_on_running_task_opens_second_session_witness :
  let task := {| task_id := "T1"; task_title := "Write report";
                 task_sessionsRelation := []; task_totalTrackedTime := 0;
                 task_lastEditedTime := ""; task_activeSession := None |} in
  tracks_open_sessions (started_at 1000) /\
  w_settings (started_at 1000) = Some sample_settings /\
  isRunning (stored_state (started_at 1000)) = true /\
  taskId (stored_state (started_at 1000)) = Some (task_id task) /\
  currentSessionId (stored_state (started_at 1000)) = Some "s1" /\
  task_activeSession task = None /\
  relation_found sample_settings (env_up 9100 "s2") = true /\
  createReply (env_up 9100 "s2") = Ok "s2" /\
  let (tl', w') := handlePlayTask None sample_settings (stored_state (started_at 1000)) task
                     (env_up 9050 "s0") (env_up 9100 "s2") (sample_list None)
                     (started_at 1000) in
  map rs_id (open_sessions (w_remote w')) = ["s1"; "s2"].
Proof.
  intros task.
  split; [ exact started_world_tracks | ]. do 7 (split; [ reflexivity | ]).
  pose proof (play_on_running_task_opens_second_session sample_settings sample_settings
                task (env_up 9050 "s0") (env_up 9100 "s2") "s1" "s2" (sample_list None)
                (started_at 1000) started_world_tracks
                eq_refl eq_refl eq_refl eq_refl eq_refl eq_refl eq_refl) as Hplay.
  destruct (handlePlayTask None sample_settings (stored_state (started_at 1000)) task
              (env_up 9050 "s0") (env_up 9100 "s2") (sample_list None)
              (started_at 1000)) as [tl' w'].
  destruct Hplay as (_ & _ & _ & _ & Hopen). exact Hopen.
Defined.

(** Play on task T2 at 800000, its session "s7" open since 500000. *)
Lemma timer_starts_from_displayed_time_witness :
  w_settings (installed (Some sample_settings) []) = Some sample_settings /\
  patchReply (env_up 800000 "s0") = Ok tt /\
  relation_found sample_settings (env_up 800100 "s8") = true /\
  createReply (env_up 800100 "s8") = Ok "s8" /\
  let (ui', w') := startTrackingTask None sample_settings (sample_task (Some ("s7", 500000)))
                     (env_up 800000 "s0") (env_up 800100 "s8") sample_ui
                     (installed (Some sample_settings) []) in
  previousTotal (stored_state w') = displayTime 800000 (sample_task (Some ("s7", 500000))).
Proof.
  do 4 (split; [ reflexivity | ]).
  pose proof (timer_starts_from_displayed_time sample_settings sample_settings
                (sample_task (Some ("s7", 500000)))
                (env_up 800000 "s0") (env_up 800100 "s8") "s8" sample_ui
                (installed (Some sample_settings) []) eq_refl eq_refl eq_refl eq_refl)
    as Hplay.
  destruct (startTrackingTask None sample_settings (sample_task (Some ("s7", 500000)))
              (env_up 800000 "s0") (env_up 800100 "s8") sample_ui
              (installed (Some sample_settings) [])) as [ui' w'].
  destruct Hplay as (Htotal & _). exact Htotal.
Defined.

(** A start, a browser start-up that lost badge and alarms, and then an
    update of the extension that clears the alarms. *)
Lemma badge_and_alarm_follow_state_witness :
  let dropped := {| badge_kept := false; alarms_kept := false |} in
  let events := [ Requested (Deliver (START_TIMER sample_payload) (env_up 1000 "s1"));
                  BrowserStarted dropped ] in
  let w := play events (installed (Some sample_settings) []) in
  Forall alarm_survives events /\
  w_alarm w = true /\ isRunning (stored_state w) = true /\
  alarms_kept dropped = false /\
  isRunning (stored_state (react w (ExtensionInstalled dropped))) = true /\
  w_badge (react w (ExtensionInstalled dropped)) = BadgeRunning /\
  w_alarm (react w (ExtensionInstalled dropped)) = false.
Proof.
  intros dropped events w.
  destruct (badge_and_alarm_follow_state (Some sample_settings) [] events)
    as (_ & _ & Hexact & Hlost).
  assert (Hsurvive : Forall alarm_survives events) by (repeat constructor).
  assert (Hrun : isRunning (stored_state w) = true) by reflexivity.
  split; [ exact Hsurvive | ].
  split; [ rewrite <- Hrun; exact (Hexact Hsurvive) | ].
  split; [ exact Hrun | ]. split; [ reflexivity | ].
  destruct (Hlost dropped eq_refl Hrun) as (Hstate & Hbadge & Halarm).
  split; [ exact (eq_trans (f_equal isRunning Hstate) Hrun) | ].
  split; [ exact Hbadge | exact Halarm ].
Defined.
